(** * toolbar: exception interception, logging and re-raising

    A shallow embedding of

      - [toolbar/except_handlers/accessories.py]  (classification of
        exception objects, message templates),
      - [toolbar/except_handlers/interfaces.py]   ([log_err], [raise_except],
        [raise_type], [intercept_err_and_log], [raise_err_and_log]),
      - [decorators/except_handlers.py]           ([err_interceptor],
        [raise_if_return], [err_log_and_return], [_err_annotated_msg]),
      - [toolbar/datime/validators.py] and, of
        [toolbar/datime/timezones.py], [is_naive] and [are_eq_tz],

    and the properties of the three decorators.

    Python objects are split in two layers.  [value] is plain immutable data
    (None, bool, int, str, tuple, list, dict, class objects).  Exception
    instances are mutable objects with an identity: they live in a heap and
    are denoted by their location, so that "the very same object" is equality
    of locations and [raise X from Y] is an update of the heap cell of X.
    The arguments stored in an exception instance are plain [value]s.

    Code that can raise is a state-and-exception computation over the heap
    and the sequence of records handed to logging sinks.  The interpreter's
    implicit bookkeeping on raised objects ([__context__], [__traceback__])
    is not part of the model; the explicit [__cause__] and
    [__suppress_context__] written by [raise ... from ...] are. *)

From stdpp Require Import base list strings pretty.
From Stdlib Require Import ZArith String Ascii.

Open Scope string_scope.

(** ** Classes *)

(** How [str()] of an instance renders its arguments: [BaseException.__str__]
    or the override of [KeyError]. *)
Inductive str_kind := StrArgs | StrKey.

(** A class object: defining module, [__name__], the names of its proper
    ancestors (the method resolution order without the class itself), the
    flavour of [__str__] its instances have, and what its constructor does
    when it is called with a number of positional arguments: it takes them
    ([None]) or refuses them with a [TypeError] of the given text.  The code
    calls constructors without arguments or with one text. *)
Record pyclass := PyClass {
  cls_module : string;
  cls_name : string;
  cls_mro : list string;
  cls_str : str_kind;
  cls_init : nat -> option string
}.

(** The constructor of [BaseException]: any positional arguments. *)
Definition init_any : nat -> option string := fun _ => None.

(** A constructor of exactly [n] positional arguments, as that of
    [UnicodeDecodeError]. *)
Definition init_exactly (n : nat) : nat -> option string :=
  fun given =>
    if Nat.eqb given n then None
    else Some ("function takes exactly " +:+ pretty n +:+ " arguments ("
               +:+ pretty given +:+ " given)").

Definition builtin (name : string) (mro : list string) : pyclass :=
  PyClass "builtins" name mro StrArgs init_any.

Definition object_cls := builtin "object" [].
Definition type_cls := builtin "type" ["object"].
Definition NoneType_cls := builtin "NoneType" ["object"].
Definition int_cls := builtin "int" ["object"].
Definition bool_cls := builtin "bool" ["int"; "object"].
Definition str_cls := builtin "str" ["object"].
Definition tuple_cls := builtin "tuple" ["object"].
Definition list_cls := builtin "list" ["object"].
Definition dict_cls := builtin "dict" ["object"].

Definition BaseException_cls := builtin "BaseException" ["object"].
Definition Exception_cls :=
  builtin "Exception" ["BaseException"; "object"].
Definition SystemExit_cls :=
  builtin "SystemExit" ["BaseException"; "object"].
Definition KeyboardInterrupt_cls :=
  builtin "KeyboardInterrupt" ["BaseException"; "object"].
Definition TypeError_cls :=
  builtin "TypeError" ["Exception"; "BaseException"; "object"].
Definition ValueError_cls :=
  builtin "ValueError" ["Exception"; "BaseException"; "object"].
Definition AttributeError_cls :=
  builtin "AttributeError" ["Exception"; "BaseException"; "object"].
Definition ZeroDivisionError_cls :=
  builtin "ZeroDivisionError"
    ["ArithmeticError"; "Exception"; "BaseException"; "object"].
Definition FileNotFoundError_cls :=
  builtin "FileNotFoundError"
    ["OSError"; "Exception"; "BaseException"; "object"].
Definition KeyError_cls :=
  PyClass "builtins" "KeyError"
    ["LookupError"; "Exception"; "BaseException"; "object"] StrKey init_any.
Definition UnicodeDecodeError_cls :=
  PyClass "builtins" "UnicodeDecodeError"
    ["UnicodeError"; "ValueError"; "Exception"; "BaseException"; "object"]
    StrArgs (init_exactly 5).

(** [issubclass(c, d)] *)
Definition issubclass (c d : pyclass) : bool :=
  existsb (String.eqb (cls_name d)) (cls_name c :: cls_mro c).

(** ** Plain values *)

#[warnings="-register-all"] Inductive value :=
| VNone
| VBool (b : bool)
| VInt (z : Z)
| VStr (s : string)
| VTuple (l : list value)
| VList (l : list value)
| VDict (kvs : list (value * value))
| VClass (c : pyclass).

(** Objects: a plain value or a reference to an exception instance. *)
Definition loc := nat.

Inductive object :=
| Val (v : value)
| ExcRef (l : loc).

(** *** [repr] and [str] of plain values *)

Definition hex_digit (n : N) : ascii :=
  match String.get (N.to_nat n) "0123456789abcdef" with
  | Some c => c
  | None => "0"%char
  end.

(** One character of [repr(str)] inside the quotes [q].  Bytes from 0x80 on
    are the UTF-8 encoding of characters taken to be printable and are
    kept. *)
Definition repr_char (q c : ascii) : string :=
  let n := N_of_ascii c in
  if Ascii.eqb c q || Ascii.eqb c "\"%char then String "\"%char (String c "")
  else if Ascii.eqb c "009"%char then "\t"
  else if Ascii.eqb c "010"%char then "\n"
  else if Ascii.eqb c "013"%char then "\r"
  else if (n <? 32)%N || (n =? 127)%N
       then "\x" +:+ String (hex_digit (n / 16)) (String (hex_digit (n mod 16)) "")
  else String c "".

Fixpoint has_char (c : ascii) (s : string) : bool :=
  match s with
  | EmptyString => false
  | String d s' => Ascii.eqb c d || has_char c s'
  end.

Fixpoint repr_chars (q : ascii) (s : string) : string :=
  match s with
  | EmptyString => ""
  | String c s' => repr_char q c +:+ repr_chars q s'
  end.

(** [repr] of a [str]: double quotes when the text has a single quote and no
    double quote, single quotes otherwise. *)
Definition repr_str (s : string) : string :=
  let q := if has_char "'"%char s && negb (has_char "034"%char s)
           then "034"%char else "'"%char in
  String q (repr_chars q s) +:+ String q "".

Fixpoint join (sep : string) (l : list string) : string :=
  match l with
  | [] => ""
  | [x] => x
  | x :: l' => x +:+ sep +:+ join sep l'
  end.

(** [repr(type)]: builtin classes print without their module. *)
Definition repr_class (c : pyclass) : string :=
  if String.eqb (cls_module c) "builtins"
  then "<class '" +:+ cls_name c +:+ "'>"
  else "<class '" +:+ cls_module c +:+ "." +:+ cls_name c +:+ "'>".

(** [repr] of a tuple from the [repr]s of its items: a one-item tuple keeps a
    trailing comma. *)
Definition repr_tuple (items : list string) : string :=
  match items with
  | [x] => "(" +:+ x +:+ ",)"
  | _ => "(" +:+ join ", " items +:+ ")"
  end.

Definition repr_dict (items : list (string * string)) : string :=
  "{" +:+ join ", " (map (fun kv => fst kv +:+ ": " +:+ snd kv) items) +:+ "}".

Fixpoint py_repr (v : value) : string :=
  match v with
  | VNone => "None"
  | VBool b => if b then "True" else "False"
  | VInt z => pretty z
  | VStr s => repr_str s
  | VTuple l => repr_tuple (map py_repr l)
  | VList l => "[" +:+ join ", " (map py_repr l) +:+ "]"
  | VDict kvs =>
      repr_dict (map (fun kv => (py_repr (fst kv), py_repr (snd kv))) kvs)
  | VClass c => repr_class c
  end.

(** [str(v)]: the text itself for a [str], [repr] for the rest. *)
Definition py_str (v : value) : string :=
  match v with
  | VStr s => s
  | _ => py_repr v
  end.

(** Truth value of a plain value. *)
Definition truthy (v : value) : bool :=
  match v with
  | VNone => false
  | VBool b => b
  | VInt z => negb (z =? 0)%Z
  | VStr s => negb (String.eqb s "")
  | VTuple l | VList l => negb (Nat.eqb (List.length l) 0)
  | VDict kvs => negb (Nat.eqb (List.length kvs) 0)
  | VClass _ => true
  end.

Definition type_of_value (v : value) : pyclass :=
  match v with
  | VNone => NoneType_cls
  | VBool _ => bool_cls
  | VInt _ => int_cls
  | VStr _ => str_cls
  | VTuple _ => tuple_cls
  | VList _ => list_cls
  | VDict _ => dict_cls
  | VClass _ => type_cls
  end.

(** ** Exception instances, the heap and the log *)

(** An exception instance: its class, its [args], and what
    [raise ... from ...] records on it. *)
Record exc_obj := ExcObj {
  exc_class : pyclass;
  exc_args : list value;
  exc_cause : option loc;
  exc_suppress_context : bool
}.

(** The logging sink ([logging.Logger]) is an external collaborator; all the
    code does with it is one call [log_obj.log(level, msg)].  A sink is known
    by its name and each call is kept as a record, in order. *)
Record Logger := { logger_name : string }.

Record log_record := LogRecord {
  rec_logger : string;
  rec_level : Z;
  rec_msg : string
}.

Record state := State {
  heap : list exc_obj;
  log : list log_record
}.

(** [type(o)]; a location outside the heap has no class of its own. *)
Definition type_of (h : list exc_obj) (o : object) : pyclass :=
  match o with
  | Val v => type_of_value v
  | ExcRef l => match h !! l with
                | Some e => exc_class e
                | None => object_cls
                end
  end.

(** [isinstance(o, c)] and [isinstance(o, (c1, ..., cn))] *)
Definition isinstance (h : list exc_obj) (o : object) (c : pyclass) : bool :=
  issubclass (type_of h o) c.

Definition isinstance_any (h : list exc_obj) (o : object)
    (cs : list pyclass) : bool :=
  existsb (isinstance h o) cs.

(** [str(e)] of an exception instance ([BaseException.__str__]; [KeyError]
    shows the [repr] of a single argument). *)
Definition exc_str (e : exc_obj) : string :=
  match exc_args e with
  | [] => ""
  | [a] => match cls_str (exc_class e) with
           | StrArgs => py_str a
           | StrKey => py_repr a
           end
  | args => py_repr (VTuple args)
  end.

(** [repr(e)] of an exception instance. *)
Definition exc_repr (e : exc_obj) : string :=
  cls_name (exc_class e) +:+ "(" +:+ join ", " (map py_repr (exc_args e)) +:+ ")".

Definition obj_str (h : list exc_obj) (o : object) : string :=
  match o with
  | Val v => py_str v
  | ExcRef l => match h !! l with
                | Some e => exc_str e
                | None => ""
                end
  end.

Definition obj_repr (h : list exc_obj) (o : object) : string :=
  match o with
  | Val v => py_repr v
  | ExcRef l => match h !! l with
                | Some e => exc_repr e
                | None => ""
                end
  end.

Definition obj_truthy (o : object) : bool :=
  match o with
  | Val v => truthy v
  | ExcRef _ => true
  end.

(** ** Computations that may raise *)

Inductive result (A : Type) :=
| Ok (a : A)
| Exn (l : loc).
Arguments Ok {A} a.
Arguments Exn {A} l.

Definition M (A : Type) : Type := state -> result A * state.

Definition ret {A} (a : A) : M A := fun st => (Ok a, st).

Definition bind {A B} (m : M A) (k : A -> M B) : M B :=
  fun st => match m st with
            | (Ok a, st') => k a st'
            | (Exn l, st') => (Exn l, st')
            end.

Notation "'do' x <- c ;; k" := (bind c (fun x => k))
  (at level 10, x name, c at level 99, k at level 200).
Notation "'run' c ;; k" := (bind c (fun _ => k))
  (at level 10, c at level 99, k at level 200).

(** Propagate the exception instance at [l]. *)
Definition throw {A} (l : loc) : M A := fun st => (Exn l, st).

Definition get_heap : M (list exc_obj) := fun st => (Ok (heap st), st).

(** Calling an exception class [c] on arguments: a fresh instance. *)
Definition new_exc (c : pyclass) (args : list value) : M loc :=
  fun st => (Ok (List.length (heap st)),
             State (heap st ++ [ExcObj c args None false]) (log st)).

(** What [raise ... from ...] leaves in the cell of the raised instance. *)
Definition caused_by (c : option loc) (e : exc_obj) : exc_obj :=
  ExcObj (exc_class e) (exc_args e) c true.

(** What [raise X from Y] writes on X. *)
Definition set_cause (l : loc) (c : option loc) : M unit :=
  fun st => (Ok tt, State (alter (caused_by c) l (heap st)) (log st)).

(** [log_obj.log(level, msg)] *)
Definition logger_log (lg : Logger) (level : Z) (msg : string) : M unit :=
  fun st => (Ok tt,
             State (heap st) (log st ++ [LogRecord (logger_name lg) level msg])).

(** [raise c(msg)] for a builtin class [c]. *)
Definition raise_new {A} (c : pyclass) (msg : string) : M A :=
  do l <- new_exc c [VStr msg] ;; throw l.

(** Calling the class [c] on [args]: its constructor takes them, and there
    is a fresh instance, or refuses them, and its [TypeError] is raised. *)
Definition construct (c : pyclass) (args : list value) : M loc :=
  match cls_init c (List.length args) with
  | None => new_exc c args
  | Some refusal => raise_new TypeError_cls refusal
  end.

(** The object a [raise] statement ends up with for its operand: an instance
    as it is, a class deriving from [BaseException] called without
    arguments, [TypeError] for the rest. *)
Definition exception_of (o : object) (complaint : string) : M loc :=
  match o with
  | ExcRef l => ret l
  | Val (VClass c) =>
      if issubclass c BaseException_cls then construct c []
      else raise_new TypeError_cls complaint
  | Val _ => raise_new TypeError_cls complaint
  end.

(** The operand of [from]: [None] records no cause, the rest is resolved as
    the raised operand is. *)
Definition cause_of (cause : object) : M (option loc) :=
  match cause with
  | Val VNone => ret None
  | _ =>
      do cl <- exception_of cause
                 "exception causes must derive from BaseException" ;;
      ret (Some cl)
  end.

(** [raise exc] and [raise exc from cause]. *)
Definition py_raise {A} (exc : object) (cause : option object) : M A :=
  do l <- exception_of exc "exceptions must derive from BaseException" ;;
  match cause with
  | None => throw l
  | Some c => do cl <- cause_of c ;; run set_cause l cl ;; throw l
  end.

(** [try: body  except Exception as err: handler(err)] *)
Definition try_except_Exception {A} (body : M A) (handler : loc -> M A)
    : M A :=
  fun st => match body st with
            | (Ok a, st') => (Ok a, st')
            | (Exn l, st') =>
                if isinstance (heap st') (ExcRef l) Exception_cls
                then handler l st'
                else (Exn l, st')
            end.

(** ** accessories.py *)

(** [is_exc_instance]: [isinstance(obj, Exception)] *)
Definition is_exc_instance (h : list exc_obj) (obj : object) : bool :=
  isinstance h obj Exception_cls.

(** [inspect.isclass] *)
Definition isclass (obj : object) : bool :=
  match obj with
  | Val (VClass _) => true
  | _ => false
  end.

(** [issubclass(obj, Exception)] for an object that is a class. *)
Definition issubclass_Exception (obj : object) : bool :=
  match obj with
  | Val (VClass c) => issubclass c Exception_cls
  | _ => false
  end.

Definition is_pure_exc_class (h : list exc_obj) (obj : object) : bool :=
  let is_instance := is_exc_instance h obj in
  let is_exc_class := isclass obj && issubclass_Exception obj in
  negb is_instance && is_exc_class.

Definition is_exception (h : list exc_obj) (obj : object) : bool :=
  is_exc_instance h obj || is_pure_exc_class h obj.

(** [get_err_str]: the text ["<ClassName>: <str(err)>"] for an instance of
    [Exception], the argument itself for anything else. *)
Definition get_err_str (h : list exc_obj) (err : object) : object :=
  if is_exc_instance h err
  then Val (VStr (cls_name (type_of h err) +:+ ": " +:+ obj_str h err))
  else err.

Definition simple_msg_err (h : list exc_obj) (err : object)
    (func_name : string) : string :=
  "<" +:+ func_name +:+ "> " +:+ obj_str h (get_err_str h err).

Definition annotated_msg_err (h : list exc_obj) (err : object)
    (func_name : string) (err_annotated : string) : string :=
  "<" +:+ func_name +:+ "> " +:+ err_annotated +:+ ": "
      +:+ obj_str h (get_err_str h err).

Definition get_simple_or_annotated (h : list exc_obj) (err : object)
    (func_name : string) (err_annotated : option string) : string :=
  match err_annotated with
  | None => simple_msg_err h err func_name
  | Some a => annotated_msg_err h err func_name a
  end.

(** ** interfaces.py *)

(** Calling [err(...)].  The code calls an object only after
    [is_pure_exc_class] has accepted it, so what is called is always an
    exception class, and the call runs its constructor; an object that is
    not a class is refused as not callable. *)
Definition call (obj : object) (args : list value) : M loc :=
  match obj with
  | Val (VClass c) => construct c args
  | _ => raise_new TypeError_cls "object is not callable"
  end.

(** Truth value of an optional text: [None] and the empty text are false. *)
Definition text_truthy (s : option string) : bool :=
  match s with
  | Some s => negb (String.eqb s "")
  | None => false
  end.

Definition raise_type (err : object) (msg : option string) : M unit :=
  do h <- get_heap ;;
  if negb (is_pure_exc_class h err)
  then raise_new TypeError_cls
         ("Аргумент " +:+ obj_str h err +:+
          " должен быть типом исключения, а не экземпляром исключения")
  else
    do err_instance <-
         (match msg with
          | Some m => if text_truthy msg then call err [VStr m] else call err []
          | None => call err []
          end) ;;
    py_raise (ExcRef err_instance) None.

(** What [source_func] can be: absent, a function (known by its
    [__name__]), a text, or something else. *)
Inductive source :=
| SrcNone
| SrcCallable (name : string)
| SrcStr (s : string)
| SrcOther.

(** [get_log_obj], local to [log_err]: returns its argument, unless that is
    [None]. *)
Definition get_log_obj (log_obj : option Logger) : M (option Logger) :=
  run (match log_obj with
       | None => raise_type (Val (VClass AttributeError_cls))
                   (Some "Отсутствует объект логирования")
       | Some _ => ret tt
       end) ;;
  ret log_obj.

(** [get_func_name], local to [log_err]: without a function or a text the
    name is that of [log_err] itself. *)
Definition get_func_name (fn : source) : string :=
  let fn := match fn with
            | SrcNone | SrcOther => SrcCallable "log_err"
            | _ => fn
            end in
  match fn with
  | SrcCallable name => name
  | SrcStr s => s
  | _ => "log_err"
  end.

Definition log_err (err_to_log : object) (err_annotated : option string)
    (log_obj : option Logger) (log_level : Z) (source_func : source)
    : M unit :=
  do log_obj <- get_log_obj log_obj ;;
  let func_name := get_func_name source_func in
  do h <- get_heap ;;
  let err_msg := get_simple_or_annotated h err_to_log func_name err_annotated in
  match log_obj with
  | Some lg => logger_log lg log_level err_msg
  | None => raise_new AttributeError_cls
              "'NoneType' object has no attribute 'log'"
  end.

(** [raise_except]: the operand of [from] is the conditional expression
    [err if from_err else err_raise]. *)
Definition raise_except (err err_raise : object) (from_err : bool) : M unit :=
  if obj_truthy err_raise
  then py_raise err_raise (Some (if from_err then err else err_raise))
  else py_raise err None.

Definition intercept_err_and_log (err : object) (err_annotated : option string)
    (err_raise : object) (log_obj : option Logger) (log_level : Z)
    (from_err : bool) (source_func : source) : M unit :=
  run log_err err err_annotated log_obj log_level source_func ;;
  raise_except err err_raise from_err.

Definition raise_err_and_log (err : object) (err_message : option string)
    (err_annotated : option string) (log_obj : option Logger) (log_level : Z)
    (source_func : source) : M unit :=
  do h <- get_heap ;;
  do exc_err <-
       (match err_message with
        | Some m =>
            if is_pure_exc_class h err && text_truthy err_message
            then do l <- call err [VStr m] ;; ret (ExcRef l)
            else ret err
        | None => ret err
        end) ;;
  run log_err exc_err err_annotated log_obj log_level source_func ;;
  raise_except exc_err (Val VNone) true.

(** ** decorators/except_handlers.py *)

(** [logging.ERROR] *)
Definition ERROR : Z := 40.

(** A Python function: its [__name__] and what a call with positional and
    keyword arguments does. *)
Record pyfunc := PyFunc {
  fn_name : string;
  fn_call : list object -> list (string * object) -> M object
}.

(** The texts [f'{args}'] and [f'{kwargs}'] of the captured arguments. *)
Definition str_args (h : list exc_obj) (args : list object) : string :=
  repr_tuple (map (obj_repr h) args).

Definition str_kwargs (h : list exc_obj) (kwargs : list (string * object))
    : string :=
  repr_dict (map (fun kv => (repr_str (fst kv), obj_repr h (snd kv))) kwargs).

Definition _err_annotated_msg (h : list exc_obj) (err_a : option string)
    (add_args : bool) (args : list object) (kwargs : list (string * object))
    : option string :=
  if add_args
  then
    let args_kwargs_a :=
      "args=" +:+ str_args h args +:+ ", kwargs=" +:+ str_kwargs h kwargs in
    match err_a with
    | Some a => if text_truthy err_a
                then Some (a +:+ " " +:+ args_kwargs_a)
                else Some args_kwargs_a
    | None => Some args_kwargs_a
    end
  else err_a.

(** [err_interceptor(err_raise, err_annotated=, args_to_annotate=, log_obj=,
    from_err=, log_level=)(func)]; [functools.wraps] keeps the name. *)
Definition err_interceptor (err_raise : object) (err_annotated : option string)
    (args_to_annotate : bool) (log_obj : option Logger) (from_err : bool)
    (log_level : Z) (func : pyfunc) : pyfunc :=
  PyFunc (fn_name func) (fun args kwargs =>
    try_except_Exception (fn_call func args kwargs) (fun err =>
      do h <- get_heap ;;
      let err_a :=
        _err_annotated_msg h err_annotated args_to_annotate args kwargs in
      run intercept_err_and_log (ExcRef err) err_a err_raise log_obj
            log_level from_err (SrcCallable (fn_name func)) ;;
      ret (Val VNone))).

(** [is_raise], local to the wrapper of [raise_if_return]. *)
Definition is_raise (h : list exc_obj) (res : object) (r_type : list pyclass)
    (r_none : bool) : bool :=
  isinstance_any h res r_type
  || (match res with Val VNone => true | _ => false end) && r_none.

(** [get_err_msg], local to the wrapper of [raise_if_return]. *)
Definition get_err_msg (h : list exc_obj) (res : object)
    (e_msg_annotate : option string) : string :=
  match e_msg_annotate with
  | None => obj_str h res
  | Some a => a +:+ ", " +:+ obj_str h res
  end.

(** [raise_if_return(exception=, err_msg_annotate=, log_obj=, log_level=,
    raise_by_type=, raise_by_none=)(func)] *)
Definition raise_if_return (exception : object)
    (err_msg_annotate : option string) (log_obj : option Logger)
    (log_level : Z) (raise_by_type : list pyclass) (raise_by_none : bool)
    (func : pyfunc) : pyfunc :=
  PyFunc (fn_name func) (fun args kwargs =>
    do result <- fn_call func args kwargs ;;
    do h <- get_heap ;;
    if negb (is_raise h result raise_by_type raise_by_none)
    then ret result
    else
      do err <-
           (if is_pure_exc_class h exception
            then
              let err_msg := get_err_msg h result err_msg_annotate in
              do l <- call exception [VStr err_msg] ;; ret (ExcRef l)
            else ret exception) ;;
      run intercept_err_and_log err None (Val VNone) log_obj log_level true
            (SrcCallable (fn_name func)) ;;
      ret (Val VNone)).

(** Whether [raise_if_return] can make its error out of a text: a class
    deriving from [Exception] is called on the text, so its constructor has
    to take one argument; anything else is not called. *)
Definition takes_message (exception : object) : bool :=
  match exception with
  | Val (VClass c) =>
      negb (issubclass c Exception_cls)
      || match cls_init c 1 with
         | None => true
         | Some _ => false
         end
  | _ => true
  end.

(** [err_log_and_return(err_output=, err_annotated=, args_to_annotate=,
    log_obj=, log_level=)(func)] *)
Definition err_log_and_return (err_output : object)
    (err_annotated : option string) (args_to_annotate : bool)
    (log_obj : option Logger) (log_level : Z) (func : pyfunc) : pyfunc :=
  PyFunc (fn_name func) (fun args kwargs =>
    try_except_Exception (fn_call func args kwargs) (fun err =>
      do h <- get_heap ;;
      run log_err (ExcRef err)
            (_err_annotated_msg h err_annotated args_to_annotate args kwargs)
            log_obj log_level (SrcCallable (fn_name func)) ;;
      ret err_output)).

(** *** Sample functions and sinks *)

Definition empty_state : state := State [] [].
Definition logger : Logger := {| logger_name := "app" |}.

(** [def f(a): raise KeyError('k')] *)
Definition f_KeyError : pyfunc :=
  PyFunc "f" (fun _ _ => raise_new KeyError_cls "k").

(** [def divide(a, b): raise ZeroDivisionError('division by zero')] *)
Definition divide : pyfunc :=
  PyFunc "divide" (fun _ _ => raise_new ZeroDivisionError_cls "division by zero").

(** [def parseFlag(s): return 'bad input'] *)
Definition parseFlag : pyfunc :=
  PyFunc "parseFlag" (fun _ _ => ret (Val (VStr "bad input"))).

(** [def answer(): return 42] *)
Definition answer : pyfunc :=
  PyFunc "answer" (fun _ _ => ret (Val (VInt 42))).

(** [def nothing(): return None] *)
Definition nothing : pyfunc :=
  PyFunc "nothing" (fun _ _ => ret (Val VNone)).

(** [def stop(): raise SystemExit()] *)
Definition stop : pyfunc :=
  PyFunc "stop" (fun _ _ => do l <- new_exc SystemExit_cls [] ;; throw l).


(** [ValueError('boom')], already made when a decorator is configured with
    it. *)
Definition boom : exc_obj := ExcObj ValueError_cls [VStr "boom"] None false.
Definition state_with_boom : state := State [boom] [].

(** *** What the sink receives *)

(** The record [log_err] hands to the sink [lg], composed in the heap [h]. *)
Definition logged (lg : Logger) (log_level : Z) (src : source) (err : object)
    (ann : option string) (h : list exc_obj) : log_record :=
  LogRecord (logger_name lg) log_level
    (get_simple_or_annotated h err (get_func_name src) ann).

(** The instance [raise_type] makes when there is no sink. *)
Definition missing_sink : exc_obj :=
  ExcObj AttributeError_cls [VStr "Отсутствует объект логирования"]
    None false.

(** The record a decorator of [func] leaves at the sink [lg] for the
    intercepted error [err], in the state [st'] the call of [func] ended
    in. *)
Definition record_of (func : pyfunc) (args : list object)
    (kwargs : list (string * object)) (st' : state) (lg : Logger)
    (log_level : Z) (err : object) (err_annotated : option string)
    (args_to_annotate : bool) : log_record :=
  LogRecord (logger_name lg) log_level
    (get_simple_or_annotated (heap st') err (fn_name func)
       (_err_annotated_msg (heap st') err_annotated args_to_annotate
          args kwargs)).

(** ** datime/validators.py and [are_eq_tz] of datime/timezones.py *)

(** The classes of the [datetime] module: [datetime] derives from [date]. *)
Definition date_cls := PyClass "datetime" "date" ["object"] StrArgs init_any.
Definition datetime_cls :=
  PyClass "datetime" "datetime" ["date"; "object"] StrArgs init_any.
Definition time_cls := PyClass "datetime" "time" ["object"] StrArgs init_any.

(** A [tzinfo] object, as far as the code looks at it: what its
    [utcoffset] gives for the [datetime] that holds it, a [timedelta] (in
    microseconds) or [None]. *)
Record tzinfo := { tz_utcoffset : option Z }.

(** A [datetime]: its wall-clock reading (in microseconds) and its
    [tzinfo], if any. *)
Record datetime := { dt_wall : Z; dt_tzinfo : option tzinfo }.

(** What the functions of [datime] can be given: a [datetime], a plain
    [date], a [time], or a plain value of another type. *)
Inductive dt_object :=
| DtDatetime (d : datetime)
| DtDate (day : Z)
| DtTime (wall : Z) (tz : option tzinfo)
| DtOther (v : value).

(** [type(x)] *)
Definition dt_type_of (x : dt_object) : pyclass :=
  match x with
  | DtDatetime _ => datetime_cls
  | DtDate _ => date_cls
  | DtTime _ _ => time_cls
  | DtOther v => type_of_value v
  end.

(** [isinstance(x, (c1, ..., cn))] *)
Definition dt_isinstance (x : dt_object) (cs : list pyclass) : bool :=
  existsb (issubclass (dt_type_of x)) cs.

(** [datetime.utcoffset()] *)
Definition utcoffset (d : datetime) : option Z :=
  match dt_tzinfo d with
  | None => None
  | Some tz => tz_utcoffset tz
  end.

Definition validate_any_datetime (date_time : dt_object) : M unit :=
  if negb (dt_isinstance date_time [datetime_cls; date_cls; time_cls])
  then raise_new TypeError_cls
         ("объект должен быть datetime, date или time, получено: "
          +:+ repr_class (dt_type_of date_time))
  else ret tt.

Definition validate_is_datetime (date : dt_object) (allow_date : bool)
    : M unit :=
  let msg_type := if allow_date then "datetime или date" else "datetime" in
  let check_types :=
    if allow_date then [datetime_cls; date_cls] else [datetime_cls] in
  if negb (dt_isinstance date check_types)
  then raise_new TypeError_cls
         ("ожидается " +:+ msg_type +:+ ", получено: "
          +:+ repr_class (dt_type_of date))
  else ret tt.

Definition validate_is_date (date : dt_object) : M unit :=
  if negb (dt_isinstance date [date_cls])
  then raise_new TypeError_cls
         ("ожидается datetime.date, получено: "
          +:+ repr_class (dt_type_of date))
  else ret tt.

(** [validate_is_time]: the class tested is [dt.date]. *)
Definition validate_is_time (time : dt_object) : M unit :=
  if negb (dt_isinstance time [date_cls])
  then raise_new TypeError_cls
         ("Ожидается datetime.time, получено: "
          +:+ repr_class (dt_type_of time))
  else ret tt.

(** The name of a class in the text of an [AttributeError]. *)
Definition qual_name (c : pyclass) : string :=
  if String.eqb (cls_module c) "builtins" then cls_name c
  else cls_module c +:+ "." +:+ cls_name c.

(** [x.utcoffset()] for any object: [date] objects and objects outside
    the module have no such method. *)
Definition py_utcoffset (x : dt_object) : M (option Z) :=
  match x with
  | DtDatetime d => ret (utcoffset d)
  | DtTime _ tz => ret (match tz with
                        | None => None
                        | Some t => tz_utcoffset t
                        end)
  | _ => raise_new AttributeError_cls
           ("'" +:+ qual_name (dt_type_of x)
            +:+ "' object has no attribute 'utcoffset'")
  end.


(** [all(date[0].utcoffset() == d.utcoffset() for d in date)], stopping at
    the first difference. *)
Fixpoint all_same_offset (first : dt_object) (ds : list dt_object) : M bool :=
  match ds with
  | [] => ret true
  | d :: ds' =>
      do a <- py_utcoffset first ;;
      do b <- py_utcoffset d ;;
      if bool_decide (a = b) then all_same_offset first ds' else ret false
  end.

Definition are_eq_tz (date : list dt_object) : M bool :=
  if (List.length date <? 2)%nat
  then raise_new ValueError_cls "атрибутов date должно быть 2 и более"
  else
    if negb (forallb (fun d => dt_isinstance d [datetime_cls]) date)
    then raise_new TypeError_cls "объекты date должны быть datetime"
    else match date with
         | [] => ret true
         | first :: _ => all_same_offset first date
         end.


(** *** Sample dates *)

Definition utc_noon : datetime :=
  {| dt_wall := 43200000000%Z;
     dt_tzinfo := Some {| tz_utcoffset := Some 0%Z |} |}.

(** * Properties *)

(** ** The building blocks *)

Section Blocks.
Variables (st : state) (lg : Logger) (log_level : Z) (src : source).
Variables (err : object) (ann : option string).

Lemma log_err_sink :
  log_err err ann (Some lg) log_level src st
  = (Ok tt,
     State (heap st)
           (log st ++ [logged lg log_level src err ann (heap st)])).
Proof. reflexivity. Qed.

Lemma log_err_no_sink :
  log_err err ann None log_level src st
  = (Exn (List.length (heap st)),
     State (heap st ++ [missing_sink]) (log st)).
Proof. reflexivity. Qed.

End Blocks.

(** Whatever its operands, a [raise] statement raises, and it leaves the
    log alone. *)
Lemma exception_of_log (o : object) (complaint : string) (st : state) :
  exists r h', exception_of o complaint st = (r, State h' (log st)).
Proof.
  destruct st as [h lg].
  destruct o as [[| | | | | | |c]|l]; simpl; try (do 2 eexists; reflexivity).
  destruct (issubclass c BaseException_cls); [|do 2 eexists; reflexivity].
  unfold construct. destruct (cls_init c (List.length []));
    do 2 eexists; reflexivity.
Qed.

Lemma cause_of_log (c : object) (st : state) :
  exists r h', cause_of c st = (r, State h' (log st)).
Proof.
  assert (Hgen : exists r h',
    (do cl <- exception_of c
                "exception causes must derive from BaseException" ;;
     ret (Some cl)) st = (r, State h' (log st))).
  { unfold bind.
    destruct (exception_of_log c
      "exception causes must derive from BaseException" st) as (r & h' & ->).
    destruct r; do 2 eexists; reflexivity. }
  destruct c as [[| | | | | | |c]|lc]; try exact Hgen.
  destruct st; do 2 eexists; reflexivity.
Qed.

Lemma py_raise_raises {A} (exc : object) (cause : option object) (st : state) :
  exists l h', @py_raise A exc cause st = (Exn l, State h' (log st)).
Proof.
  unfold py_raise, bind.
  destruct (exception_of_log exc "exceptions must derive from BaseException" st)
    as (r & h1 & ->).
  destruct r as [l|l]; [|do 2 eexists; reflexivity].
  destruct cause as [c|]; [|do 2 eexists; reflexivity].
  destruct (cause_of_log c (State h1 (log st))) as (r & h2 & ->).
  destruct r; do 2 eexists; reflexivity.
Qed.

Lemma raise_except_raises (err err_raise : object) (from_err : bool)
    (st : state) :
  exists l h', raise_except err err_raise from_err st = (Exn l, State h' (log st)).
Proof.
  unfold raise_except.
  destruct (obj_truthy err_raise); apply py_raise_raises.
Qed.

(** Only class objects deriving from [Exception] are pure exception classes;
    an instance never is. *)
Lemma is_pure_exc_class_inv (h : list exc_obj) (o : object) :
  is_pure_exc_class h o = true ->
  exists c, o = Val (VClass c) /\ issubclass c Exception_cls = true.
Proof.
  unfold is_pure_exc_class.
  destruct o as [[| | | | | | |c]|r]; simpl;
    rewrite ?andb_false_r; try discriminate.
  intros H. exists c. split; [reflexivity | exact H].
Qed.

Lemma is_pure_exc_class_instance (h : list exc_obj) (r : loc) :
  is_pure_exc_class h (ExcRef r) = false.
Proof. unfold is_pure_exc_class. simpl. apply andb_false_r. Qed.

(** ** The decorators *)

Section Wrapped.
Variable func : pyfunc.
Variables (args : list object) (kwargs : list (string * object)).
Variables st st' : state.

(** C5: [err_interceptor] without [err_raise] and with a sink re-raises the
    very object the wrapped function raised (the same location, its heap
    cell untouched), after one record at the sink. *)
Theorem err_interceptor_reraises_same_object
    (l : loc) (err_annotated : option string) (args_to_annotate : bool)
    (lg : Logger) (from_err : bool) (log_level : Z) :
  fn_call func args kwargs st = (Exn l, st') ->
  is_exc_instance (heap st') (ExcRef l) = true ->
  fn_call (err_interceptor (Val VNone) err_annotated args_to_annotate
             (Some lg) from_err log_level func) args kwargs st
  = (Exn l,
     State (heap st')
           (log st' ++ [record_of func args kwargs st' lg log_level (ExcRef l)
                          err_annotated
                          args_to_annotate])).
Proof.
  intros Hcall Hexc. unfold is_exc_instance in Hexc.
  simpl. unfold try_except_Exception. rewrite Hcall, Hexc.
  reflexivity.
Qed.

(** C9: [err_log_and_return] with a sink, around a function that raises an
    [Exception]: one record at the sink, then the fallback [err_output] is
    returned; nothing is raised and the heap (hence every [__cause__]) is
    as the function left it. *)
Theorem err_log_and_return_logs_and_returns
    (l : loc) (err_output : object) (err_annotated : option string)
    (args_to_annotate : bool) (lg : Logger) (log_level : Z) :
  fn_call func args kwargs st = (Exn l, st') ->
  is_exc_instance (heap st') (ExcRef l) = true ->
  fn_call (err_log_and_return err_output err_annotated args_to_annotate
             (Some lg) log_level func) args kwargs st
  = (Ok err_output,
     State (heap st')
           (log st' ++ [record_of func args kwargs st' lg log_level (ExcRef l)
                          err_annotated
                          args_to_annotate])).
Proof.
  intros Hcall Hexc. unfold is_exc_instance in Hexc.
  simpl. unfold try_except_Exception. rewrite Hcall, Hexc.
  reflexivity.
Qed.

(** C10: an exception that is not an instance of [Exception] (such as
    [SystemExit] or [KeyboardInterrupt]) passes through [err_interceptor]
    and [err_log_and_return] as the wrapped function raised it: same
    object, same heap, same log, no fallback. *)
Theorem non_Exception_propagates
    (l : loc) (err_raise err_output : object) (err_annotated : option string)
    (args_to_annotate : bool) (log_obj : option Logger) (from_err : bool)
    (log_level : Z) :
  fn_call func args kwargs st = (Exn l, st') ->
  is_exc_instance (heap st') (ExcRef l) = false ->
  fn_call (err_interceptor err_raise err_annotated args_to_annotate
             log_obj from_err log_level func) args kwargs st = (Exn l, st')
  /\ fn_call (err_log_and_return err_output err_annotated args_to_annotate
                log_obj log_level func) args kwargs st = (Exn l, st').
Proof.
  intros Hcall Hexc. unfold is_exc_instance in Hexc.
  split; simpl; unfold try_except_Exception; rewrite Hcall, Hexc;
    reflexivity.
Qed.

(** C8: when the wrapped function returns [v], each of the three wrappers
    returns [v] in the state the function left: nothing is logged. For
    [raise_if_return] this is the case of a result that does not
    trigger. *)
Theorem wrappers_pass_result_through
    (v : object) (err_raise err_output exception : object)
    (err_annotated err_msg_annotate : option string)
    (args_to_annotate : bool) (log_obj : option Logger) (from_err : bool)
    (log_level : Z) (raise_by_type : list pyclass) (raise_by_none : bool) :
  fn_call func args kwargs st = (Ok v, st') ->
  fn_call (err_interceptor err_raise err_annotated args_to_annotate
             log_obj from_err log_level func) args kwargs st = (Ok v, st')
  /\ fn_call (err_log_and_return err_output err_annotated args_to_annotate
                log_obj log_level func) args kwargs st = (Ok v, st')
  /\ (is_raise (heap st') v raise_by_type raise_by_none = false ->
      fn_call (raise_if_return exception err_msg_annotate log_obj log_level
                 raise_by_type raise_by_none func) args kwargs st
      = (Ok v, st')).
Proof.
  intros Hcall. repeat split.
  - simpl. unfold try_except_Exception. now rewrite Hcall.
  - simpl. unfold try_except_Exception. now rewrite Hcall.
  - intros Hno. simpl. unfold bind. rewrite Hcall. simpl.
    now rewrite Hno.
Qed.
(** A location that holds an instance of [Exception] is inside the
    heap. *)
Lemma exc_instance_allocated (h : list exc_obj) (l : loc) :
  is_exc_instance h (ExcRef l) = true -> l < List.length h.
Proof.
  unfold is_exc_instance, isinstance, type_of. intros H.
  destruct (h !! l) eqn:E.
  - eapply lookup_lt_Some; eauto.
  - discriminate H.
Qed.

(** C3: without a sink, [log_err] and [intercept_err_and_log] raise the
    fresh [AttributeError] of [raise_type] and nothing else happens: no
    record, no re-raise of the captured error.  Under [err_interceptor] and
    [err_log_and_return] that error leaves the wrapper: it is not the
    captured object, and no fallback is returned. *)
Theorem missing_sink_is_fatal
    (err err_raise err_output : object) (err_annotated : option string)
    (args_to_annotate from_err : bool) (log_level : Z) (src : source)
    (s : state) (l : loc) :
  log_err err err_annotated None log_level src s
  = (Exn (List.length (heap s)), State (heap s ++ [missing_sink]) (log s))
  /\ intercept_err_and_log err err_annotated err_raise None log_level
       from_err src s
     = (Exn (List.length (heap s)),
        State (heap s ++ [missing_sink]) (log s))
  /\ (fn_call func args kwargs st = (Exn l, st') ->
      is_exc_instance (heap st') (ExcRef l) = true ->
      List.length (heap st') <> l
      /\ fn_call (err_interceptor err_raise err_annotated args_to_annotate
                    None from_err log_level func) args kwargs st
         = (Exn (List.length (heap st')),
            State (heap st' ++ [missing_sink]) (log st'))
      /\ fn_call (err_log_and_return err_output err_annotated
                    args_to_annotate None log_level func) args kwargs st
         = (Exn (List.length (heap st')),
            State (heap st' ++ [missing_sink]) (log st'))).
Proof.
  split; [reflexivity|]. split; [reflexivity|].
  intros Hcall Hexc. split.
  - apply exc_instance_allocated in Hexc. lia.
  - unfold is_exc_instance in Hexc.
    split; simpl; unfold try_except_Exception; rewrite Hcall, Hexc;
      reflexivity.
Qed.

(** When the result triggers, there is a sink and the error can be made,
    [raise_if_return] leaves exactly one record there and raises. *)
Lemma raise_if_return_triggered
    (v exception : object) (err_msg_annotate : option string) (lg : Logger)
    (log_level : Z) (raise_by_type : list pyclass) (raise_by_none : bool) :
  fn_call func args kwargs st = (Ok v, st') ->
  is_raise (heap st') v raise_by_type raise_by_none = true ->
  takes_message exception = true ->
  exists l h' msg,
    fn_call (raise_if_return exception err_msg_annotate (Some lg) log_level
               raise_by_type raise_by_none func) args kwargs st
    = (Exn l,
       State h' (log st' ++ [LogRecord (logger_name lg) log_level msg])).
Proof.
  intros Hcall Htrig Htakes. simpl. unfold bind at 1. rewrite Hcall.
  unfold bind at 1. simpl. rewrite Htrig. simpl.
  destruct (is_pure_exc_class (heap st') exception) eqn:Hpure.
  - apply is_pure_exc_class_inv in Hpure as (c & -> & Hsub).
    simpl in Htakes. rewrite Hsub in Htakes. simpl in Htakes.
    unfold bind, call, construct. simpl.
    destruct (cls_init c 1); [discriminate Htakes|].
    simpl. do 3 eexists; reflexivity.
  - unfold bind at 1. simpl. unfold bind at 1.
    unfold intercept_err_and_log, bind at 1. rewrite log_err_sink.
    match goal with
    | |- context [raise_except ?e ?r ?f ?s] =>
        destruct (raise_except_raises e r f s) as (l & h' & ->)
    end.
    do 3 eexists; reflexivity.
Qed.

(** When the result triggers and the constructor of the class refuses the
    text, its [TypeError] is what [raise_if_return] raises: the sink is
    not reached. *)
Lemma raise_if_return_refused
    (v : object) (c : pyclass) (refusal : string)
    (err_msg_annotate : option string) (log_obj : option Logger)
    (log_level : Z) (raise_by_type : list pyclass) (raise_by_none : bool) :
  fn_call func args kwargs st = (Ok v, st') ->
  is_raise (heap st') v raise_by_type raise_by_none = true ->
  issubclass c Exception_cls = true ->
  cls_init c 1 = Some refusal ->
  fn_call (raise_if_return (Val (VClass c)) err_msg_annotate log_obj log_level
             raise_by_type raise_by_none func) args kwargs st
  = (Exn (List.length (heap st')),
     State (heap st' ++ [ExcObj TypeError_cls [VStr refusal] None false])
           (log st')).
Proof.
  intros Hcall Htrig Hsub Hinit. simpl. unfold bind at 1. rewrite Hcall.
  unfold bind at 1. simpl. rewrite Htrig. simpl.
  unfold is_pure_exc_class. simpl isclass. simpl issubclass_Exception.
  rewrite Hsub. simpl.
  unfold bind, call, construct. simpl. rewrite Hinit. reflexivity.
Qed.

Lemma takes_message_false (exception : object) :
  takes_message exception = false ->
  exists c refusal,
    exception = Val (VClass c) /\ issubclass c Exception_cls = true
    /\ cls_init c 1 = Some refusal.
Proof.
  destruct exception as [[| | | | | | |c]|r]; try discriminate.
  simpl. destruct (issubclass c Exception_cls) eqn:Hsub; [|discriminate].
  destruct (cls_init c 1) as [refusal|] eqn:Hinit; [|discriminate].
  intros _. exists c, refusal. repeat split; assumption.
Qed.

(** C6: [raise_if_return] with the default policy
    [raise_by_type=(str,), raise_by_none=False].  A result that is not a
    [str] comes back as it is, in the state the function left.  A [str]
    result gives exactly one raised error; the sink has exactly one record
    by then when [exception] is an instance or a class whose constructor
    takes the text, and none when the constructor refuses it.  [None]
    triggers exactly when [raise_by_none] is set. *)
Theorem raise_if_return_default_policy
    (v exception : object) (err_msg_annotate : option string)
    (log_obj : option Logger) (lg : Logger) (log_level : Z)
    (raise_by_none : bool) :
  fn_call func args kwargs st = (Ok v, st') ->
  (isinstance (heap st') v str_cls = false ->
   fn_call (raise_if_return exception err_msg_annotate log_obj log_level
              [str_cls] false func) args kwargs st = (Ok v, st'))
  /\ (isinstance (heap st') v str_cls = true ->
      (takes_message exception = true ->
       exists l h' msg,
         fn_call (raise_if_return exception err_msg_annotate (Some lg)
                    log_level [str_cls] false func) args kwargs st
         = (Exn l,
            State h' (log st' ++ [LogRecord (logger_name lg) log_level msg])))
      /\ (takes_message exception = false ->
          exists l h',
            fn_call (raise_if_return exception err_msg_annotate (Some lg)
                       log_level [str_cls] false func) args kwargs st
            = (Exn l, State h' (log st'))))
  /\ (v = Val VNone ->
      is_raise (heap st') v [str_cls] raise_by_none = raise_by_none
      /\ fn_call (raise_if_return exception err_msg_annotate log_obj
                    log_level [str_cls] false func) args kwargs st
         = (Ok v, st')
      /\ (takes_message exception = true ->
          exists l h' msg,
            fn_call (raise_if_return exception err_msg_annotate (Some lg)
                       log_level [str_cls] true func) args kwargs st
            = (Exn l,
               State h'
                 (log st' ++ [LogRecord (logger_name lg) log_level msg])))
      /\ (takes_message exception = false ->
          exists l h',
            fn_call (raise_if_return exception err_msg_annotate (Some lg)
                       log_level [str_cls] true func) args kwargs st
            = (Exn l, State h' (log st')))).
Proof.
  intros Hcall.
  assert (Hpass : forall lo, is_raise (heap st') v [str_cls] false = false ->
    fn_call (raise_if_return exception err_msg_annotate lo log_level
               [str_cls] false func) args kwargs st = (Ok v, st')).
  { intros lo Hno. simpl. unfold bind. rewrite Hcall. simpl.
    now rewrite Hno. }
  assert (Hrefused : forall r_none,
    is_raise (heap st') v [str_cls] r_none = true ->
    takes_message exception = false ->
    exists l h',
      fn_call (raise_if_return exception err_msg_annotate (Some lg)
                 log_level [str_cls] r_none func) args kwargs st
      = (Exn l, State h' (log st'))).
  { intros r_none Htrig Hno.
    apply takes_message_false in Hno as (c & refusal & -> & Hsub & Hinit).
    do 2 eexists.
    apply (raise_if_return_refused v c refusal); assumption. }
  split; [|split].
  - intros Hns. apply Hpass.
    unfold is_raise, isinstance_any. simpl. rewrite Hns.
    now rewrite andb_false_r.
  - intros Hs.
    assert (Htrig : is_raise (heap st') v [str_cls] false = true).
    { unfold is_raise, isinstance_any. simpl. now rewrite Hs. }
    split.
    + intros Htakes. now apply (raise_if_return_triggered v).
    + now apply Hrefused.
  - intros ->. split; [reflexivity|]. split; [now apply Hpass|]. split.
    + intros Htakes. now apply (raise_if_return_triggered (Val VNone)).
    + now apply Hrefused.
Qed.

(** C7: when the result triggers and [exception] is a class deriving from
    [Exception] whose constructor takes one argument, [raise_if_return]
    raises a fresh instance of that class whose only argument is the text
    [str(result)], or [err_msg_annotate + ", " + str(result)] when an
    annotation was given; the sink gets one record, about that instance. *)
Theorem raise_if_return_instantiates_type
    (v : object) (c : pyclass) (err_msg_annotate : option string)
    (lg : Logger) (log_level : Z) (raise_by_type : list pyclass)
    (raise_by_none : bool) :
  fn_call func args kwargs st = (Ok v, st') ->
  is_raise (heap st') v raise_by_type raise_by_none = true ->
  issubclass c Exception_cls = true ->
  cls_init c 1 = None ->
  let msg := match err_msg_annotate with
             | None => obj_str (heap st') v
             | Some a => a +:+ ", " +:+ obj_str (heap st') v
             end in
  let fresh := List.length (heap st') in
  let h' := (heap st' ++ [ExcObj c [VStr msg] None false])%list in
  fn_call (raise_if_return (Val (VClass c)) err_msg_annotate (Some lg)
             log_level raise_by_type raise_by_none func) args kwargs st
  = (Exn fresh,
     State h'
       (log st' ++ [LogRecord (logger_name lg) log_level
                      (simple_msg_err h' (ExcRef fresh) (fn_name func))])).
Proof.
  intros Hcall Htrig Hsub Hinit msg fresh h'.
  simpl. unfold bind at 1. rewrite Hcall.
  unfold bind at 1. simpl. rewrite Htrig. simpl.
  unfold is_pure_exc_class. simpl isclass. simpl issubclass_Exception.
  rewrite Hsub. simpl.
  unfold bind at 1. unfold bind at 1. unfold call, construct. simpl.
  rewrite Hinit. reflexivity.
Qed.
End Wrapped.

(** ** Substitution and the declared cause *)

(** [raise_except] with an instance [r] to substitute: [r] is raised, and its
    declared cause is the captured error [l] when [from_err] is set and [r]
    itself when it is not. *)
Lemma raise_except_substitute_instance (l r : loc) (from_err : bool)
    (s : state) :
  raise_except (ExcRef l) (ExcRef r) from_err s
  = (Exn r,
     State (alter (caused_by (Some (if from_err then l else r))) r (heap s))
           (log s)).
Proof. destruct from_err; reflexivity. Qed.

(** With a class to substitute, whose constructor takes no argument, and
    [from_err] set, a fresh instance without arguments is raised and its
    declared cause is the captured error. *)
Lemma raise_except_substitute_class_chained (l : loc) (c : pyclass)
    (s : state) :
  issubclass c BaseException_cls = true ->
  cls_init c 0 = None ->
  raise_except (ExcRef l) (Val (VClass c)) true s
  = (Exn (List.length (heap s)),
     State (heap s ++ [ExcObj c [] (Some l) true]) (log s)).
Proof.
  intros Hsub Hinit. unfold raise_except, py_raise, bind. simpl.
  rewrite Hsub. unfold construct. simpl. rewrite Hinit. simpl.
  unfold set_cause. simpl.
  do 2 f_equal.
  rewrite <- (Nat.add_0_r (List.length (heap s))).
  now rewrite alter_app_r.
Qed.

(** With a class to substitute, whose constructor takes no argument, and
    [from_err] unset, the class is called twice: the first instance is
    raised and the second is its declared cause. *)
Lemma raise_except_substitute_class_unchained (l : loc) (c : pyclass)
    (s : state) :
  issubclass c BaseException_cls = true ->
  cls_init c 0 = None ->
  raise_except (ExcRef l) (Val (VClass c)) false s
  = (Exn (List.length (heap s)),
     State (heap s ++ [ExcObj c [] (Some (S (List.length (heap s)))) true;
                       ExcObj c [] None false])
           (log s)).
Proof.
  intros Hsub Hinit. unfold raise_except, py_raise, cause_of, bind. simpl.
  rewrite Hsub. unfold construct. simpl. rewrite !Hinit. simpl.
  unfold set_cause, throw. simpl.
  do 2 f_equal.
  rewrite length_app, Nat.add_1_r, <- app_assoc. simpl.
  rewrite <- (Nat.add_0_r (List.length (heap s))).
  now rewrite alter_app_r.
Qed.

(** With [from_err=True], [err_interceptor] with an instance to substitute
    raises that instance with the captured error as its declared cause. *)
Lemma err_interceptor_chains_cause
    (func : pyfunc) (args : list object) (kwargs : list (string * object))
    (st st' : state) (l r : loc) (err_annotated : option string)
    (args_to_annotate : bool) (lg : Logger) (log_level : Z) :
  fn_call func args kwargs st = (Exn l, st') ->
  is_exc_instance (heap st') (ExcRef l) = true ->
  fn_call (err_interceptor (ExcRef r) err_annotated args_to_annotate
             (Some lg) true log_level func) args kwargs st
  = (Exn r,
     State (alter (caused_by (Some l)) r (heap st'))
           (log st' ++ [record_of func args kwargs st' lg log_level (ExcRef l)
                          err_annotated args_to_annotate])).
Proof.
  intros Hcall Hexc. unfold is_exc_instance in Hexc.
  simpl. unfold try_except_Exception. rewrite Hcall, Hexc.
  reflexivity.
Qed.

(** C1: [err_interceptor(ValueError('boom'), log_obj=logger, from_err=False)]
    around [divide], which raises [ZeroDivisionError].  The instance
    configured (location 0) is raised, the captured error is the object at
    location 1, and the declared cause of the raised instance is not empty:
    it is the raised instance itself, with [__suppress_context__] set. *)
Theorem unchained_substitute_declares_itself_as_cause :
  let out :=
    fn_call (err_interceptor (ExcRef 0) None false (Some logger) false ERROR
               divide)
      [Val (VInt 1); Val (VInt 0)] [] state_with_boom in
  fst out = Exn 0
  /\ heap (snd out)
     = [ExcObj ValueError_cls [VStr "boom"] (Some 0) true;
        ExcObj ZeroDivisionError_cls [VStr "division by zero"] None false]
  /\ exc_cause <$> heap (snd out) !! 0 = Some (Some 0).
Proof. repeat split. Qed.

(** ** The annotation of [raise_if_return] *)

(** With an instance as [exception], [err_msg_annotate] is not used at all:
    the wrapper behaves as if it had not been given. *)
Lemma raise_if_return_instance_drops_annotation
    (func : pyfunc) (args : list object) (kwargs : list (string * object))
    (st : state) (r : loc) (err_msg_annotate : option string)
    (log_obj : option Logger) (log_level : Z) (raise_by_type : list pyclass)
    (raise_by_none : bool) :
  fn_call (raise_if_return (ExcRef r) err_msg_annotate log_obj log_level
             raise_by_type raise_by_none func) args kwargs st
  = fn_call (raise_if_return (ExcRef r) None log_obj log_level
               raise_by_type raise_by_none func) args kwargs st.
Proof.
  simpl. unfold bind.
  destruct (fn_call func args kwargs st) as [[v|l] s]; [|reflexivity].
  simpl.
  destruct (is_raise (heap s) v raise_by_type raise_by_none); [|reflexivity].
  simpl. rewrite is_pure_exc_class_instance. reflexivity.
Qed.

(** C2: [raise_if_return(exception=ValueError('boom'),
    err_msg_annotate='ctx', log_obj=logger)] around [parseFlag], which returns
    ['bad input'].  The instance is raised with its text unchanged, and the
    one record at the sink is ["<parseFlag> ValueError: boom"]: the
    annotation ['ctx'] is nowhere in it. *)
Theorem instance_annotation_is_not_logged :
  let out :=
    fn_call (raise_if_return (ExcRef 0) (Some "ctx") (Some logger) ERROR
               [str_cls] false parseFlag)
      [Val (VStr "x")] [] state_with_boom in
  out = (Exn 0,
         State [boom] [LogRecord "app" 40 "<parseFlag> ValueError: boom"])
  /\ (forall rec, rec ∈ log (snd out) ->
        String.index 0 "ctx" (rec_msg rec) = None).
Proof.
  split; [reflexivity|].
  intros rec Hin. simpl in Hin. apply list_elem_of_singleton in Hin.
  subst rec. reflexivity.
Qed.

(** ** The composed message *)

(** C4: with source label ["f"], annotation ["ctx"] and the captured
    arguments [(1,)] and [{}], the annotation becomes
    ["ctx args=(1,), kwargs={}"] and the message is
    ["<f> ctx args=(1,), kwargs={}: "] followed by the rendered error: the
    label stands between angle brackets. *)
Theorem composed_message_order (h : list exc_obj) (err : object) :
  _err_annotated_msg h (Some "ctx") true [Val (VInt 1)] []
  = Some "ctx args=(1,), kwargs={}"
  /\ get_simple_or_annotated h err "f"
       (_err_annotated_msg h (Some "ctx") true [Val (VInt 1)] [])
     = "<f> ctx args=(1,), kwargs={}: " +:+ obj_str h (get_err_str h err).
Proof. split; reflexivity. Qed.

(** Without the brackets it is another text: the message composed for
    [KeyError('k')] is not ["f ctx args=(1,), kwargs={}: "] followed by the
    rendered error. *)
Lemma composed_message_has_brackets :
  let h := [ExcObj KeyError_cls [VStr "k"] None false] in
  get_simple_or_annotated h (ExcRef 0) "f"
    (_err_annotated_msg h (Some "ctx") true [Val (VInt 1)] [])
  <> "f ctx args=(1,), kwargs={}: " +:+ obj_str h (get_err_str h (ExcRef 0)).
Proof. simpl. discriminate. Qed.

(** ** A constructor that refuses the text *)

(** Not every [str] result leaves a record:
    [raise_if_return(exception=UnicodeDecodeError, log_obj=logger)] around
    [parseFlag], which returns ['bad input'].  The constructor wants five
    arguments and gets one, so its [TypeError] is what the wrapper raises,
    before the sink is reached. *)
Lemma refused_text_leaves_no_record :
  let out :=
    fn_call (raise_if_return (Val (VClass UnicodeDecodeError_cls)) None
               (Some logger) ERROR [str_cls] false parseFlag)
      [] [] empty_state in
  out = (Exn 0,
         State [ExcObj TypeError_cls
                  [VStr "function takes exactly 5 arguments (1 given)"]
                  None false] [])
  /\ ~ (exists rec, log (snd out) = [rec]).
Proof.
  split; [reflexivity|].
  intros (rec & H). discriminate H.
Qed.

(** Nor is the raised error always an instance of the class configured: with
    the same class and an annotation, what is raised is a [TypeError]
    carrying the complaint of the constructor, not the annotated text. *)
Lemma refused_text_raises_TypeError :
  let out :=
    fn_call (raise_if_return (Val (VClass UnicodeDecodeError_cls))
               (Some "ctx") (Some logger) ERROR [str_cls] false parseFlag)
      [] [] empty_state in
  fst out = Exn 0
  /\ isinstance (heap (snd out)) (ExcRef 0) UnicodeDecodeError_cls = false
  /\ exc_class <$> heap (snd out) !! 0 = Some TypeError_cls
  /\ exc_args <$> heap (snd out) !! 0
     = Some [VStr "function takes exactly 5 arguments (1 given)"].
Proof. repeat split. Qed.

(** ** The theorems at sample calls *)

Lemma err_interceptor_reraises_same_object_witness :
  fn_call f_KeyError [Val (VInt 1)] [] empty_state
  = (Exn 0, State [ExcObj KeyError_cls [VStr "k"] None false] [])
  /\ fn_call (err_interceptor (Val VNone) (Some "ctx") true (Some logger) true
                ERROR f_KeyError) [Val (VInt 1)] [] empty_state
     = (Exn 0,
        State [ExcObj KeyError_cls [VStr "k"] None false]
              [LogRecord "app" 40
                 "<f> ctx args=(1,), kwargs={}: KeyError: 'k'"]).
Proof.
  split; [reflexivity|].
  exact (err_interceptor_reraises_same_object f_KeyError [Val (VInt 1)] []
           empty_state _ 0 (Some "ctx") true logger true ERROR
           eq_refl eq_refl).
Defined.

Lemma err_log_and_return_logs_and_returns_witness :
  fn_call divide [Val (VInt 1); Val (VInt 0)] [] empty_state
  = (Exn 0,
     State [ExcObj ZeroDivisionError_cls [VStr "division by zero"] None false]
           [])
  /\ fn_call (err_log_and_return (Val (VDict [])) None false (Some logger)
                ERROR divide) [Val (VInt 1); Val (VInt 0)] [] empty_state
     = (Ok (Val (VDict [])),
        State [ExcObj ZeroDivisionError_cls [VStr "division by zero"] None
                 false]
              [LogRecord "app" 40
                 "<divide> ZeroDivisionError: division by zero"]).
Proof.
  split; [reflexivity|].
  exact (err_log_and_return_logs_and_returns divide
           [Val (VInt 1); Val (VInt 0)] [] empty_state _ 0 (Val (VDict []))
           None false logger ERROR eq_refl eq_refl).
Defined.

Lemma non_Exception_propagates_witness :
  let raised := (@Exn object 0, State [ExcObj SystemExit_cls [] None false] []) in
  fn_call stop [] [] empty_state = raised
  /\ is_exc_instance [ExcObj SystemExit_cls [] None false] (ExcRef 0) = false
  /\ fn_call (err_interceptor (Val (VClass ValueError_cls)) (Some "ctx") true
                (Some logger) true ERROR stop) [] [] empty_state = raised
  /\ fn_call (err_log_and_return (Val VNone) (Some "ctx") true (Some logger)
                ERROR stop) [] [] empty_state = raised.
Proof.
  split; [reflexivity|]. split; [reflexivity|].
  exact (non_Exception_propagates stop [] [] empty_state _ 0
           (Val (VClass ValueError_cls)) (Val VNone) (Some "ctx") true
           (Some logger) true ERROR eq_refl eq_refl).
Defined.

Lemma wrappers_pass_result_through_witness :
  let returned := (Ok (Val (VInt 42)), empty_state) in
  fn_call answer [] [] empty_state = returned
  /\ is_raise [] (Val (VInt 42)) [str_cls] false = false
  /\ fn_call (err_interceptor (Val (VClass ValueError_cls)) None false
                (Some logger) true ERROR answer) [] [] empty_state = returned
  /\ fn_call (err_log_and_return (Val VNone) None false (Some logger) ERROR
                answer) [] [] empty_state = returned
  /\ fn_call (raise_if_return (Val (VClass ValueError_cls)) None (Some logger)
                ERROR [str_cls] false answer) [] [] empty_state = returned.
Proof.
  split; [reflexivity|]. split; [reflexivity|].
  pose proof (wrappers_pass_result_through answer [] [] empty_state _
                (Val (VInt 42)) (Val (VClass ValueError_cls)) (Val VNone)
                (Val (VClass ValueError_cls)) None None false (Some logger)
                true ERROR [str_cls] false eq_refl) as (H1 & H2 & H3).
  split; [exact H1|]. split; [exact H2|]. exact (H3 eq_refl).
Defined.

Lemma missing_sink_is_fatal_witness :
  let captured :=
    ExcObj ZeroDivisionError_cls [VStr "division by zero"] None false in
  let fatal := (@Exn object 1, State [captured; missing_sink] []) in
  fn_call divide [] [] empty_state = (Exn 0, State [captured] [])
  /\ is_exc_instance [captured] (ExcRef 0) = true
  /\ fn_call (err_interceptor (Val VNone) None false None true ERROR divide)
       [] [] empty_state = fatal
  /\ fn_call (err_log_and_return (Val (VDict [])) None false None ERROR divide)
       [] [] empty_state = fatal.
Proof.
  split; [reflexivity|]. split; [reflexivity|].
  pose proof (missing_sink_is_fatal divide [] [] empty_state
                (State [ExcObj ZeroDivisionError_cls
                          [VStr "division by zero"] None false] [])
                (ExcRef 0) (Val VNone) (Val (VDict [])) None false true ERROR
                SrcNone empty_state 0) as (_ & _ & H).
  destruct (H eq_refl eq_refl) as (_ & H1 & H2).
  split; [exact H1 | exact H2].
Defined.

Lemma raise_if_return_default_policy_witness :
  (fn_call answer [] [] empty_state = (Ok (Val (VInt 42)), empty_state)
   /\ isinstance [] (Val (VInt 42)) str_cls = false
   /\ fn_call (raise_if_return (Val (VClass ValueError_cls)) None
                 (Some logger) ERROR [str_cls] false answer) [] [] empty_state
      = (Ok (Val (VInt 42)), empty_state))
  /\ (fn_call parseFlag [] [] empty_state
      = (Ok (Val (VStr "bad input")), empty_state)
      /\ isinstance [] (Val (VStr "bad input")) str_cls = true
      /\ takes_message (Val (VClass ValueError_cls)) = true
      /\ (exists l h' msg,
            fn_call (raise_if_return (Val (VClass ValueError_cls)) None
                       (Some logger) ERROR [str_cls] false parseFlag)
              [] [] empty_state
            = (Exn l, State h' ([] ++ [LogRecord "app" 40 msg])))
      /\ takes_message (Val (VClass UnicodeDecodeError_cls)) = false
      /\ exists l h',
           fn_call (raise_if_return (Val (VClass UnicodeDecodeError_cls)) None
                      (Some logger) ERROR [str_cls] false parseFlag)
             [] [] empty_state
           = (Exn l, State h' []))
  /\ (fn_call nothing [] [] empty_state = (Ok (Val VNone), empty_state)
      /\ fn_call (raise_if_return (Val (VClass ValueError_cls)) None
                    (Some logger) ERROR [str_cls] false nothing)
           [] [] empty_state
         = (Ok (Val VNone), empty_state)
      /\ exists l h' msg,
           fn_call (raise_if_return (Val (VClass ValueError_cls)) None
                      (Some logger) ERROR [str_cls] true nothing)
             [] [] empty_state
           = (Exn l, State h' ([] ++ [LogRecord "app" 40 msg]))).
Proof.
  split; [|split].
  - split; [reflexivity|]. split; [reflexivity|].
    exact (proj1 (raise_if_return_default_policy answer [] [] empty_state _
                    (Val (VInt 42)) (Val (VClass ValueError_cls)) None
                    (Some logger) logger ERROR false eq_refl) eq_refl).
  - split; [reflexivity|]. split; [reflexivity|]. split; [reflexivity|].
    split; [|split; [reflexivity|]].
    + exact (proj1 (proj1 (proj2 (raise_if_return_default_policy parseFlag
                                    [] [] empty_state _
                                    (Val (VStr "bad input"))
                                    (Val (VClass ValueError_cls)) None
                                    (Some logger) logger ERROR false
                                    eq_refl)) eq_refl) eq_refl).
    + exact (proj2 (proj1 (proj2 (raise_if_return_default_policy parseFlag
                                    [] [] empty_state _
                                    (Val (VStr "bad input"))
                                    (Val (VClass UnicodeDecodeError_cls))
                                    None (Some logger) logger ERROR false
                                    eq_refl)) eq_refl) eq_refl).
  - split; [reflexivity|].
    destruct (proj2 (proj2 (raise_if_return_default_policy nothing [] []
                              empty_state _ (Val VNone)
                              (Val (VClass ValueError_cls)) None (Some logger)
                              logger ERROR true eq_refl)) eq_refl)
      as (_ & H1 & H2 & _).
    split; [exact H1 | exact (H2 eq_refl)].
Defined.

Lemma raise_if_return_instantiates_type_witness :
  fn_call parseFlag [] [] empty_state
  = (Ok (Val (VStr "bad input")), empty_state)
  /\ is_raise [] (Val (VStr "bad input")) [str_cls] false = true
  /\ issubclass ValueError_cls Exception_cls = true
  /\ cls_init ValueError_cls 1 = None
  /\ fn_call (raise_if_return (Val (VClass ValueError_cls)) (Some "ctx")
                (Some logger) ERROR [str_cls] false parseFlag)
       [] [] empty_state
     = (Exn 0,
        State [ExcObj ValueError_cls [VStr "ctx, bad input"] None false]
              [LogRecord "app" 40 "<parseFlag> ValueError: ctx, bad input"])
  /\ fn_call (raise_if_return (Val (VClass ValueError_cls)) None
                (Some logger) ERROR [str_cls] false parseFlag)
       [] [] empty_state
     = (Exn 0,
        State [ExcObj ValueError_cls [VStr "bad input"] None false]
              [LogRecord "app" 40 "<parseFlag> ValueError: bad input"]).
Proof.
  split; [reflexivity|]. split; [reflexivity|]. split; [reflexivity|].
  split; [reflexivity|]. split.
  - exact (raise_if_return_instantiates_type parseFlag [] [] empty_state _
             (Val (VStr "bad input")) ValueError_cls (Some "ctx") logger
             ERROR [str_cls] false eq_refl eq_refl eq_refl eq_refl).
  - exact (raise_if_return_instantiates_type parseFlag [] [] empty_state _
             (Val (VStr "bad input")) ValueError_cls None logger
             ERROR [str_cls] false eq_refl eq_refl eq_refl eq_refl).
Defined.

(** ** Sample renderings and scenarios *)

Example repr_of_arguments :
  str_args [] [Val (VInt 1)] = "(1,)"
  /\ str_args [] [Val (VInt 1); Val (VStr "a")] = "(1, 'a')"
  /\ str_args [] [] = "()"
  /\ str_kwargs [] [("b", Val (VInt 0)); ("c", Val VNone)]
     = "{'b': 0, 'c': None}".
Proof. repeat split. Qed.

Example text_of_exceptions :
  exc_str (ExcObj KeyError_cls [VStr "k"] None false) = "'k'"
  /\ exc_str (ExcObj ValueError_cls [VStr "k"] None false) = "k"
  /\ exc_str (ExcObj ValueError_cls [] None false) = ""
  /\ exc_str (ExcObj ValueError_cls [VStr "k"; VInt 2] None false)
     = "('k', 2)".
Proof. repeat split. Qed.

(** [err_interceptor(ValueError, log_obj=logger)] around [divide]: one record
    naming [divide], and a fresh [ValueError] whose declared cause is the
    [ZeroDivisionError] that was captured. *)
Example scenario_divide :
  fn_call (err_interceptor (Val (VClass ValueError_cls)) None false
             (Some logger) true ERROR divide)
    [Val (VInt 1); Val (VInt 0)] [] empty_state
  = (Exn 1,
     State [ExcObj ZeroDivisionError_cls [VStr "division by zero"] None false;
            ExcObj ValueError_cls [] (Some 0) true]
           [LogRecord "app" 40
              "<divide> ZeroDivisionError: division by zero"]).
Proof. reflexivity. Qed.

(** A name given as text, and no name at all. *)
Example names_of_sources :
  get_func_name (SrcStr "loader") = "loader"
  /\ get_func_name SrcNone = "log_err"
  /\ get_func_name SrcOther = "log_err"
  /\ get_func_name (SrcCallable "load") = "load".
Proof. repeat split. Qed.

(** * Further properties *)

(** ** Classification *)

(** [is_exception] accepts exactly the instances of [Exception] that live in
    the heap and the class objects deriving from [Exception]; no object is
    both an instance and a pure class. *)
Theorem is_exception_characterised (h : list exc_obj) (o : object) :
  (is_exception h o = true <->
   (exists l e, o = ExcRef l /\ h !! l = Some e
                /\ issubclass (exc_class e) Exception_cls = true)
   \/ (exists c, o = Val (VClass c) /\ issubclass c Exception_cls = true))
  /\ is_exc_instance h o && is_pure_exc_class h o = false.
Proof.
  split.
  - unfold is_exception. split.
    + intros H. apply orb_prop in H as [H|H].
      * left. destruct o as [v|l].
        -- destruct v; discriminate H.
        -- unfold is_exc_instance, isinstance, type_of in H.
           destruct (h !! l) as [e|] eqn:E; [|discriminate H].
           exists l, e. auto.
      * right. apply is_pure_exc_class_inv in H. exact H.
    + intros [(l & e & -> & E & Hsub)|(c & -> & Hsub)].
      * unfold is_exc_instance, isinstance, type_of. rewrite E, Hsub.
        reflexivity.
      * unfold is_pure_exc_class. simpl. rewrite Hsub. reflexivity.
  - unfold is_pure_exc_class.
    destruct (is_exc_instance h o); reflexivity.
Qed.

(** ** [raise_type] *)

(** For a class deriving from [Exception], [raise_type] calls the class:
    on the message as its only argument, or on no argument when the message
    is absent or empty.  When the constructor takes that, the fresh instance
    is raised; when it refuses, the [TypeError] of the constructor is.
    Nothing is logged. *)
Theorem raise_type_instantiates (c : pyclass) (msg : option string)
    (st : state) :
  issubclass c Exception_cls = true ->
  let given := match msg with
               | Some m => if String.eqb m "" then [] else [VStr m]
               | None => []
               end in
  (cls_init c (List.length given) = None ->
   raise_type (Val (VClass c)) msg st
   = (Exn (List.length (heap st)),
      State (heap st ++ [ExcObj c given None false]) (log st)))
  /\ (forall refusal,
      cls_init c (List.length given) = Some refusal ->
      raise_type (Val (VClass c)) msg st
      = (Exn (List.length (heap st)),
         State (heap st ++ [ExcObj TypeError_cls [VStr refusal] None false])
               (log st))).
Proof.
  intros Hsub given.
  assert (Hstep : raise_type (Val (VClass c)) msg st
                  = (do err_instance <- construct c given ;;
                     py_raise (ExcRef err_instance) None) st).
  { unfold raise_type, bind at 1. simpl.
    unfold is_pure_exc_class. simpl. rewrite Hsub. simpl.
    subst given. destruct msg as [m|]; [|reflexivity].
    simpl. destruct (String.eqb m ""); reflexivity. }
  rewrite Hstep. unfold bind, construct. split.
  - intros ->. reflexivity.
  - intros refusal ->. reflexivity.
Qed.

(** Given anything that is not a pure exception class (an instance, a text,
    a class outside [Exception]), [raise_type] raises a fresh [TypeError]
    naming the argument; the argument itself is not raised and nothing is
    logged. *)
Theorem raise_type_rejects_non_class (err : object) (msg : option string)
    (st : state) :
  is_pure_exc_class (heap st) err = false ->
  raise_type err msg st
  = (Exn (List.length (heap st)),
     State (heap st ++
            [ExcObj TypeError_cls
               [VStr ("Аргумент " +:+ obj_str (heap st) err +:+
                      " должен быть типом исключения, а не экземпляром исключения")]
               None false])
           (log st)).
Proof.
  intros Hno. unfold raise_type, bind. simpl. rewrite Hno. reflexivity.
Qed.

(** ** [raise_except] *)

(** Without a substitute ([None], or any false value) the captured error is
    raised again as it is, whatever [from_err] says; the state is
    untouched. *)
Theorem raise_except_without_substitute (l : loc) (err_raise : object)
    (from_err : bool) (st : state) :
  obj_truthy err_raise = false ->
  raise_except (ExcRef l) err_raise from_err st = (Exn l, st).
Proof.
  intros Hf. unfold raise_except. rewrite Hf. reflexivity.
Qed.

(** With a sink, [intercept_err_and_log] hands exactly one record to it and
    then raises: it never returns, whatever is given as error, substitute
    and [from_err]. *)
Theorem intercept_err_and_log_always_raises
    (err err_raise : object) (err_annotated : option string) (lg : Logger)
    (log_level : Z) (from_err : bool) (src : source) (st : state) :
  exists l h',
    intercept_err_and_log err err_annotated err_raise (Some lg) log_level
      from_err src st
    = (Exn l,
       State h' (log st ++ [logged lg log_level src err err_annotated
                              (heap st)])).
Proof.
  unfold intercept_err_and_log, bind. rewrite log_err_sink.
  match goal with
  | |- context [raise_except ?e ?r ?f ?s] =>
      destruct (raise_except_raises e r f s) as (l & h' & ->)
  end.
  exists l, h'. reflexivity.
Qed.

(** ** More on the decorators *)

(** The instance just appended to a heap is found at the old length. *)
Lemma lookup_fresh (h : list exc_obj) (e : exc_obj) :
  (h ++ [e])%list !! List.length h = Some e.
Proof.
  rewrite lookup_app_r by lia. now rewrite Nat.sub_diag.
Qed.

Lemma fresh_is_exc_instance (h : list exc_obj) (e : exc_obj) :
  issubclass (exc_class e) Exception_cls = true ->
  is_exc_instance (h ++ [e])%list (ExcRef (List.length h)) = true.
Proof.
  intros Hsub. unfold is_exc_instance, isinstance, type_of.
  now rewrite lookup_fresh.
Qed.

Section MoreWrapped.
Variable func : pyfunc.
Variables (args : list object) (kwargs : list (string * object)).
Variables st st' : state.

(** [err_interceptor] with a class to substitute, whose constructor takes
    no argument, and [from_err=True]: after one record about the captured
    error, a fresh instance of the class is raised.  It is made without
    arguments (the text of the captured error is not passed on) and its
    declared cause is the captured error. *)
Theorem err_interceptor_substitutes_class
    (l : loc) (c : pyclass) (err_annotated : option string)
    (args_to_annotate : bool) (lg : Logger) (log_level : Z) :
  fn_call func args kwargs st = (Exn l, st') ->
  is_exc_instance (heap st') (ExcRef l) = true ->
  issubclass c BaseException_cls = true ->
  cls_init c 0 = None ->
  fn_call (err_interceptor (Val (VClass c)) err_annotated args_to_annotate
             (Some lg) true log_level func) args kwargs st
  = (Exn (List.length (heap st')),
     State (heap st' ++ [ExcObj c [] (Some l) true])
           (log st' ++ [record_of func args kwargs st' lg log_level (ExcRef l)
                          err_annotated args_to_annotate])).
Proof.
  intros Hcall Hexc Hsub Hinit. unfold is_exc_instance in Hexc.
  simpl. unfold try_except_Exception. rewrite Hcall, Hexc.
  unfold bind at 1. simpl. unfold bind at 1.
  unfold intercept_err_and_log, bind at 1. rewrite log_err_sink.
  rewrite raise_except_substitute_class_chained by assumption.
  reflexivity.
Qed.

(** On the error path [err_interceptor] never returns: whatever substitute,
    sink and [from_err] it was given, an [Exception] raised by the wrapped
    function ends in a raise, after exactly one record when there is a sink
    and none when there is not. *)
Theorem err_interceptor_always_raises
    (l : loc) (err_raise : object) (err_annotated : option string)
    (args_to_annotate : bool) (log_obj : option Logger) (from_err : bool)
    (log_level : Z) :
  fn_call func args kwargs st = (Exn l, st') ->
  is_exc_instance (heap st') (ExcRef l) = true ->
  exists l' h',
    fn_call (err_interceptor err_raise err_annotated args_to_annotate
               log_obj from_err log_level func) args kwargs st
    = (Exn l',
       State h'
         (log st' ++
          match log_obj with
          | Some lg => [record_of func args kwargs st' lg log_level (ExcRef l)
                          err_annotated args_to_annotate]
          | None => []
          end)).
Proof.
  intros Hcall Hexc. unfold is_exc_instance in Hexc.
  simpl. unfold try_except_Exception. rewrite Hcall, Hexc.
  unfold bind at 1. simpl. unfold bind at 1.
  destruct log_obj as [lg|].
  - unfold intercept_err_and_log, bind at 1. rewrite log_err_sink.
    match goal with
    | |- context [raise_except ?e ?r ?f ?s] =>
        destruct (raise_except_raises e r f s) as (l' & h' & ->)
    end.
    exists l', h'. reflexivity.
  - unfold intercept_err_and_log, bind at 1. rewrite log_err_no_sink.
    do 2 eexists. rewrite app_nil_r. reflexivity.
Qed.

(** [raise_if_return] looks at results only: an error raised by the wrapped
    function, of whatever class, leaves the wrapper as it is, and nothing
    is logged. *)
Theorem raise_if_return_propagates_errors
    (l : loc) (exception : object) (err_msg_annotate : option string)
    (log_obj : option Logger) (log_level : Z) (raise_by_type : list pyclass)
    (raise_by_none : bool) :
  fn_call func args kwargs st = (Exn l, st') ->
  fn_call (raise_if_return exception err_msg_annotate log_obj log_level
             raise_by_type raise_by_none func) args kwargs st
  = (Exn l, st').
Proof.
  intros Hcall. simpl. unfold bind. now rewrite Hcall.
Qed.

(** [raise_if_return] with an instance as [exception]: when the result
    triggers, that very instance is raised, nothing in the heap changes
    (its text is as it was given), and the one record is about the
    instance. *)
Theorem raise_if_return_raises_given_instance
    (v : object) (r : loc) (err_msg_annotate : option string) (lg : Logger)
    (log_level : Z) (raise_by_type : list pyclass) (raise_by_none : bool) :
  fn_call func args kwargs st = (Ok v, st') ->
  is_raise (heap st') v raise_by_type raise_by_none = true ->
  fn_call (raise_if_return (ExcRef r) err_msg_annotate (Some lg) log_level
             raise_by_type raise_by_none func) args kwargs st
  = (Exn r,
     State (heap st')
           (log st' ++ [LogRecord (logger_name lg) log_level
                          (simple_msg_err (heap st') (ExcRef r)
                             (fn_name func))])).
Proof.
  intros Hcall Htrig. simpl. unfold bind at 1. rewrite Hcall.
  unfold bind at 1. simpl. rewrite Htrig. simpl.
  rewrite is_pure_exc_class_instance. reflexivity.
Qed.

(** The decorators stacked, [err_log_and_return] over [raise_if_return] with
    an [Exception] class whose constructor takes one argument: a triggering
    result becomes an error inside and a fallback outside.  The caller gets [err_output]; the sinks got two
    records, the inner one first, both under the name of the wrapped
    function and both about the instance made inside. *)
Theorem fallback_over_raise_if_return
    (v err_output : object) (c : pyclass)
    (err_msg_annotate err_annotated : option string) (args_to_annotate : bool)
    (lg_in lg_out : Logger) (level_in level_out : Z)
    (raise_by_type : list pyclass) (raise_by_none : bool) :
  fn_call func args kwargs st = (Ok v, st') ->
  is_raise (heap st') v raise_by_type raise_by_none = true ->
  issubclass c Exception_cls = true ->
  cls_init c 1 = None ->
  let fresh := List.length (heap st') in
  let h' := (heap st' ++
             [ExcObj c [VStr (get_err_msg (heap st') v err_msg_annotate)]
                None false])%list in
  fn_call (err_log_and_return err_output err_annotated args_to_annotate
             (Some lg_out) level_out
             (raise_if_return (Val (VClass c)) err_msg_annotate (Some lg_in)
                level_in raise_by_type raise_by_none func)) args kwargs st
  = (Ok err_output,
     State h'
       (log st' ++
        [LogRecord (logger_name lg_in) level_in
           (simple_msg_err h' (ExcRef fresh) (fn_name func));
         LogRecord (logger_name lg_out) level_out
           (get_simple_or_annotated h' (ExcRef fresh) (fn_name func)
              (_err_annotated_msg h' err_annotated args_to_annotate
                 args kwargs))])).
Proof.
  intros Hcall Htrig Hsub Hinit fresh h'.
  assert (Hinner :
    fn_call (raise_if_return (Val (VClass c)) err_msg_annotate (Some lg_in)
               level_in raise_by_type raise_by_none func) args kwargs st
    = (Exn fresh,
       State h' (log st' ++ [LogRecord (logger_name lg_in) level_in
                               (simple_msg_err h' (ExcRef fresh)
                                  (fn_name func))]))).
  { simpl. unfold bind at 1. rewrite Hcall.
    unfold bind at 1. simpl. rewrite Htrig. simpl.
    unfold is_pure_exc_class. simpl isclass. simpl issubclass_Exception.
    rewrite Hsub. simpl.
    unfold bind at 1. unfold bind at 1. unfold call, construct. simpl.
    rewrite Hinit. reflexivity. }
  assert (Hexc : isinstance h' (ExcRef fresh) Exception_cls = true).
  { apply (fresh_is_exc_instance (heap st')). exact Hsub. }
  unfold err_log_and_return, fn_call at 1. unfold try_except_Exception.
  rewrite Hinner. cbn [heap]. rewrite Hexc.
  unfold bind at 1. simpl. unfold bind. rewrite log_err_sink.
  cbn [heap log]. rewrite <- app_assoc. reflexivity.
Qed.

(** [err_interceptor] stacked on [err_interceptor], neither with a
    substitute: the object raised by the wrapped function reaches the caller
    through both, the heap is as the function left it, and each wrapper
    left its record, the inner one first. *)
Theorem nested_interceptors_log_twice
    (l : loc) (ann_in ann_out : option string) (aa_in aa_out : bool)
    (lg_in lg_out : Logger) (from_in from_out : bool)
    (level_in level_out : Z) :
  fn_call func args kwargs st = (Exn l, st') ->
  is_exc_instance (heap st') (ExcRef l) = true ->
  fn_call (err_interceptor (Val VNone) ann_out aa_out (Some lg_out) from_out
             level_out
             (err_interceptor (Val VNone) ann_in aa_in (Some lg_in) from_in
                level_in func)) args kwargs st
  = (Exn l,
     State (heap st')
       (log st' ++
        [record_of func args kwargs st' lg_in level_in (ExcRef l) ann_in aa_in;
         record_of func args kwargs st' lg_out level_out (ExcRef l) ann_out
           aa_out])).
Proof.
  intros Hcall Hexc. unfold is_exc_instance in Hexc.
  unfold err_interceptor at 1, fn_call at 1. unfold try_except_Exception.
  assert (Hinner :
    fn_call (err_interceptor (Val VNone) ann_in aa_in (Some lg_in) from_in
               level_in func) args kwargs st
    = (Exn l,
       State (heap st')
             (log st' ++ [record_of func args kwargs st' lg_in level_in
                            (ExcRef l) ann_in aa_in]))).
  { simpl. unfold try_except_Exception. rewrite Hcall, Hexc. reflexivity. }
  rewrite Hinner. cbn [heap]. rewrite Hexc.
  unfold bind at 1. simpl. unfold bind at 1.
  unfold intercept_err_and_log, bind at 1. rewrite log_err_sink.
  unfold raise_except. simpl. rewrite <- app_assoc. reflexivity.
Qed.
End MoreWrapped.

(** ** [raise_err_and_log] *)

(** Given an instance, [raise_err_and_log] leaves one record about it and
    raises that very instance; [err_message] plays no part and the heap is
    untouched. *)
Theorem raise_err_and_log_instance
    (r : loc) (err_message err_annotated : option string) (lg : Logger)
    (log_level : Z) (src : source) (st : state) :
  raise_err_and_log (ExcRef r) err_message err_annotated (Some lg) log_level
    src st
  = (Exn r,
     State (heap st)
           (log st ++ [logged lg log_level src (ExcRef r) err_annotated
                         (heap st)])).
Proof.
  unfold raise_err_and_log, bind at 1. simpl.
  rewrite is_pure_exc_class_instance. simpl.
  destruct err_message; reflexivity.
Qed.

(** Given a class deriving from [Exception], whose constructor takes one
    argument, and a message that is not empty, [raise_err_and_log] makes an
    instance with that message, leaves one record about the instance and
    raises it. *)
Theorem raise_err_and_log_class_with_message
    (c : pyclass) (m : string) (err_annotated : option string) (lg : Logger)
    (log_level : Z) (src : source) (st : state) :
  issubclass c Exception_cls = true ->
  cls_init c 1 = None ->
  m <> "" ->
  let fresh := List.length (heap st) in
  let h' := (heap st ++ [ExcObj c [VStr m] None false])%list in
  raise_err_and_log (Val (VClass c)) (Some m) err_annotated (Some lg)
    log_level src st
  = (Exn fresh,
     State h' (log st ++ [logged lg log_level src (ExcRef fresh)
                            err_annotated h'])).
Proof.
  intros Hsub Hinit Hm fresh h'. apply String.eqb_neq in Hm.
  unfold raise_err_and_log, bind at 1. simpl.
  unfold is_pure_exc_class. simpl. rewrite Hsub, Hm. simpl.
  unfold bind at 1. unfold bind at 1. unfold call, construct. simpl.
  rewrite Hinit. reflexivity.
Qed.

(** Given a class, whose constructor takes no argument, and no message (or
    an empty one), [raise_err_and_log] does not make the instance itself:
    the record is about the class object, and what is raised is the instance
    that [raise] makes of the class, without arguments. *)
Theorem raise_err_and_log_class_without_message
    (c : pyclass) (err_message err_annotated : option string) (lg : Logger)
    (log_level : Z) (src : source) (st : state) :
  issubclass c BaseException_cls = true ->
  cls_init c 0 = None ->
  text_truthy err_message = false ->
  raise_err_and_log (Val (VClass c)) err_message err_annotated (Some lg)
    log_level src st
  = (Exn (List.length (heap st)),
     State (heap st ++ [ExcObj c [] None false])
           (log st ++ [logged lg log_level src (Val (VClass c)) err_annotated
                         (heap st)])).
Proof.
  intros Hsub Hinit Hm.
  assert (Hraise : forall s : state,
    raise_except (Val (VClass c)) (Val VNone) true s
    = (Exn (List.length (heap s)),
       State (heap s ++ [ExcObj c [] None false]) (log s))).
  { intros s. unfold raise_except, py_raise, bind. simpl.
    rewrite Hsub. unfold construct. simpl. rewrite Hinit. reflexivity. }
  unfold raise_err_and_log.
  destruct err_message as [m|].
  - simpl in Hm. unfold bind at 1. simpl. unfold bind at 1.
    rewrite Hm, andb_false_r. simpl.
    unfold bind at 1. rewrite log_err_sink. rewrite Hraise. reflexivity.
  - unfold bind at 1. simpl. unfold bind at 1. simpl.
    unfold bind at 1. rewrite log_err_sink. rewrite Hraise. reflexivity.
Qed.

(** ** Messages *)

(** The text of the error in a message: class name and [str] for an instance
    of [Exception]; a plain text as it is; for an instance outside
    [Exception] its [str] alone; for a class object its [repr]. *)
Theorem rendered_error_text (h : list exc_obj) (l : loc) (e : exc_obj)
    (s : string) (c : pyclass) :
  h !! l = Some e ->
  obj_str h (get_err_str h (ExcRef l))
  = (if issubclass (exc_class e) Exception_cls
     then cls_name (exc_class e) +:+ ": " +:+ exc_str e
     else exc_str e)
  /\ obj_str h (get_err_str h (Val (VStr s))) = s
  /\ obj_str h (get_err_str h (Val (VClass c))) = repr_class c.
Proof.
  intros E. split; [|split; reflexivity].
  unfold get_err_str, is_exc_instance, isinstance. simpl. rewrite E.
  destruct (issubclass (exc_class e) Exception_cls); simpl;
    rewrite ?E; reflexivity.
Qed.

Lemma append_assoc (a b c : string) : (a +:+ b) +:+ c = a +:+ (b +:+ c).
Proof.
  induction a as [|x a IH]; [reflexivity|].
  change (String x ((a +:+ b) +:+ c) = String x (a +:+ (b +:+ c))).
  now rewrite IH.
Qed.

(** An empty annotation is not an absent one for the template: without the
    arguments it gives an empty annotation block.  With the arguments
    captured it is dropped, as an absent one is, and the arguments alone
    are the annotation. *)
Theorem empty_annotation (h : list exc_obj) (err : object) (name : string)
    (args : list object) (kwargs : list (string * object)) :
  get_simple_or_annotated h err name
    (_err_annotated_msg h (Some "") false args kwargs)
  = "<" +:+ name +:+ "> : " +:+ obj_str h (get_err_str h err)
  /\ _err_annotated_msg h (Some "") true args kwargs
     = _err_annotated_msg h None true args kwargs
  /\ get_simple_or_annotated h err name
       (_err_annotated_msg h None true args kwargs)
     = "<" +:+ name +:+ "> args=" +:+ str_args h args +:+ ", kwargs="
       +:+ str_kwargs h kwargs +:+ ": " +:+ obj_str h (get_err_str h err).
Proof.
  split; [reflexivity|]. split; [reflexivity|].
  unfold _err_annotated_msg, get_simple_or_annotated, annotated_msg_err.
  rewrite !append_assoc. reflexivity.
Qed.

(** Without a function or a text as [source_func], the record is labelled
    with the name of [log_err] itself; a text labels it as a function of
    that name would. *)
Theorem source_label_fallback (err : object) (ann : option string)
    (log_obj : option Logger) (log_level : Z) (s : string) (st : state) :
  log_err err ann log_obj log_level SrcNone st
  = log_err err ann log_obj log_level (SrcCallable "log_err") st
  /\ log_err err ann log_obj log_level SrcOther st
     = log_err err ann log_obj log_level (SrcCallable "log_err") st
  /\ log_err err ann log_obj log_level (SrcStr s) st
     = log_err err ann log_obj log_level (SrcCallable s) st.
Proof. repeat split. Qed.

(** * datime *)

(** ** The validators *)

(** [validate_is_time] tests its argument against [dt.date]: it returns for
    every [datetime] and every [date], and raises [TypeError] for every
    [time] object. *)
Theorem validate_is_time_tests_date (d : datetime) (day wall : Z)
    (tz : option tzinfo) (st : state) :
  validate_is_time (DtDatetime d) st = (Ok tt, st)
  /\ validate_is_time (DtDate day) st = (Ok tt, st)
  /\ validate_is_time (DtTime wall tz) st
     = (Exn (List.length (heap st)),
        State (heap st ++
               [ExcObj TypeError_cls
                  [VStr "Ожидается datetime.time, получено: <class 'datetime.time'>"]
                  None false])
              (log st)).
Proof. repeat split. Qed.

(** Only a [datetime] passes the test against [dt.datetime]. *)
Lemma isinstance_datetime (x : dt_object) :
  dt_isinstance x [datetime_cls] = true <-> exists d, x = DtDatetime d.
Proof.
  split.
  - destruct x as [d| | |v]; try discriminate; [eauto|].
    destruct v; discriminate.
  - intros [d ->]. reflexivity.
Qed.

(** With [allow_date=True], [validate_is_datetime] accepts exactly what
    [validate_is_date] accepts, because a [datetime] is a [date].  Without
    it a plain [date] is refused; and what the strict form accepts, every
    validator of the module accepts. *)
Theorem validators_are_nested (x : dt_object) (day : Z) (st : state) :
  (validate_is_datetime x true st = (Ok tt, st)
   <-> validate_is_date x st = (Ok tt, st))
  /\ (exists l st', validate_is_datetime (DtDate day) false st = (Exn l, st'))
  /\ (validate_is_datetime x false st = (Ok tt, st) ->
      validate_is_datetime x true st = (Ok tt, st)
      /\ validate_is_date x st = (Ok tt, st)
      /\ validate_any_datetime x st = (Ok tt, st)
      /\ validate_is_time x st = (Ok tt, st)).
Proof.
  split; [|split].
  - destruct x as [d| | |v]; try (split; reflexivity);
      try (split; discriminate).
    destruct v; split; discriminate.
  - do 2 eexists. reflexivity.
  - destruct x as [d| | |v]; try discriminate; [repeat split|].
    destruct v; discriminate.
Qed.

(** ** [are_eq_tz] *)




(** Fewer than two arguments are refused with [ValueError] before anything
    else is looked at, whatever the arguments are; with two or more, one
    argument that is not a [datetime] (a plain [date], say) gives
    [TypeError]. *)
Theorem are_eq_tz_refuses (date : list dt_object) (st : state) :
  ((List.length date < 2)%nat ->
   are_eq_tz date st
   = (Exn (List.length (heap st)),
      State (heap st ++
             [ExcObj ValueError_cls
                [VStr "атрибутов date должно быть 2 и более"] None false])
            (log st)))
  /\ ((2 <= List.length date)%nat ->
      (exists x, x ∈ date /\ forall d, x <> DtDatetime d) ->
      are_eq_tz date st
      = (Exn (List.length (heap st)),
         State (heap st ++
                [ExcObj TypeError_cls
                   [VStr "объекты date должны быть datetime"] None false])
               (log st))).
Proof.
  split.
  - intros Hlen. unfold are_eq_tz.
    destruct (Nat.ltb_spec (List.length date) 2) as [_|H]; [|lia].
    reflexivity.
  - intros Hlen (x & Hin & Hx). unfold are_eq_tz.
    destruct (Nat.ltb_spec (List.length date) 2) as [H|_]; [lia|].
    destruct (forallb (fun d => dt_isinstance d [datetime_cls]) date)
      eqn:Hall; [|reflexivity].
    exfalso. rewrite forallb_forall in Hall.
    apply list_elem_of_In in Hin. apply Hall in Hin.
    apply isinstance_datetime in Hin as [d ->]. now apply (Hx d).
Qed.



(** ** The further properties at sample calls *)

Lemma raise_type_instantiates_witness :
  issubclass AttributeError_cls Exception_cls = true
  /\ cls_init AttributeError_cls 1 = None
  /\ raise_type (Val (VClass AttributeError_cls)) (Some "no sink") empty_state
     = (Exn 0,
        State [ExcObj AttributeError_cls [VStr "no sink"] None false] [])
  /\ cls_init AttributeError_cls 0 = None
  /\ raise_type (Val (VClass AttributeError_cls)) (Some "") empty_state
     = (Exn 0, State [ExcObj AttributeError_cls [] None false] [])
  /\ cls_init UnicodeDecodeError_cls 1
     = Some "function takes exactly 5 arguments (1 given)"
  /\ raise_type (Val (VClass UnicodeDecodeError_cls)) (Some "bad byte")
       empty_state
     = (Exn 0,
        State [ExcObj TypeError_cls
                 [VStr "function takes exactly 5 arguments (1 given)"]
                 None false] []).
Proof.
  split; [reflexivity|]. split; [reflexivity|]. split.
  - exact (proj1 (raise_type_instantiates AttributeError_cls (Some "no sink")
                    empty_state eq_refl) eq_refl).
  - split; [reflexivity|]. split.
    + exact (proj1 (raise_type_instantiates AttributeError_cls (Some "")
                      empty_state eq_refl) eq_refl).
    + split; [reflexivity|].
      exact (proj2 (raise_type_instantiates UnicodeDecodeError_cls
                      (Some "bad byte") empty_state eq_refl) _ eq_refl).
Defined.

Lemma raise_type_rejects_non_class_witness :
  is_pure_exc_class [boom] (ExcRef 0) = false
  /\ raise_type (ExcRef 0) (Some "text") state_with_boom
     = (Exn 1,
        State [boom;
               ExcObj TypeError_cls
                 [VStr "Аргумент boom должен быть типом исключения, а не экземпляром исключения"]
                 None false] []).
Proof.
  split; [reflexivity|].
  exact (raise_type_rejects_non_class (ExcRef 0) (Some "text")
           state_with_boom eq_refl).
Defined.

Lemma raise_except_without_substitute_witness :
  obj_truthy (Val VNone) = false
  /\ raise_except (ExcRef 0) (Val VNone) true state_with_boom
     = (Exn 0, state_with_boom)
  /\ raise_except (ExcRef 0) (Val (VStr "")) false state_with_boom
     = (Exn 0, state_with_boom).
Proof.
  split; [reflexivity|]. split.
  - exact (raise_except_without_substitute 0 (Val VNone) true
             state_with_boom eq_refl).
  - exact (raise_except_without_substitute 0 (Val (VStr "")) false
             state_with_boom eq_refl).
Defined.

Lemma err_interceptor_chains_cause_witness :
  fn_call divide [] [] state_with_boom
  = (Exn 1,
     State [boom;
            ExcObj ZeroDivisionError_cls [VStr "division by zero"] None false]
           [])
  /\ fn_call (err_interceptor (ExcRef 0) None false (Some logger) true ERROR
                divide) [] [] state_with_boom
     = (Exn 0,
        State [ExcObj ValueError_cls [VStr "boom"] (Some 1) true;
               ExcObj ZeroDivisionError_cls [VStr "division by zero"] None
                 false]
              [LogRecord "app" 40
                 "<divide> ZeroDivisionError: division by zero"]).
Proof.
  split; [reflexivity|].
  exact (err_interceptor_chains_cause divide [] [] state_with_boom _ 1 0 None
           false logger ERROR eq_refl eq_refl).
Defined.

Lemma err_interceptor_substitutes_class_witness :
  fn_call divide [] [] empty_state
  = (Exn 0,
     State [ExcObj ZeroDivisionError_cls [VStr "division by zero"] None false]
           [])
  /\ issubclass ValueError_cls BaseException_cls = true
  /\ cls_init ValueError_cls 0 = None
  /\ fn_call (err_interceptor (Val (VClass ValueError_cls)) None false
                (Some logger) true ERROR divide) [] [] empty_state
     = (Exn 1,
        State [ExcObj ZeroDivisionError_cls [VStr "division by zero"] None
                 false;
               ExcObj ValueError_cls [] (Some 0) true]
              [LogRecord "app" 40
                 "<divide> ZeroDivisionError: division by zero"]).
Proof.
  split; [reflexivity|]. split; [reflexivity|]. split; [reflexivity|].
  exact (err_interceptor_substitutes_class divide [] [] empty_state _ 0
           ValueError_cls None false logger ERROR eq_refl eq_refl eq_refl
           eq_refl).
Defined.

Lemma err_interceptor_always_raises_witness :
  fn_call divide [] [] empty_state
  = (Exn 0,
     State [ExcObj ZeroDivisionError_cls [VStr "division by zero"] None false]
           [])
  /\ exists l' h',
       fn_call (err_interceptor (Val (VStr "not an error")) None false
                  (Some logger) false ERROR divide) [] [] empty_state
       = (Exn l',
          State h'
            ([] ++ [LogRecord "app" 40
                      "<divide> ZeroDivisionError: division by zero"])).
Proof.
  split; [reflexivity|].
  exact (err_interceptor_always_raises divide [] [] empty_state _ 0
           (Val (VStr "not an error")) None false (Some logger) false ERROR
           eq_refl eq_refl).
Defined.

Lemma raise_if_return_propagates_errors_witness :
  fn_call divide [] [] empty_state
  = (Exn 0,
     State [ExcObj ZeroDivisionError_cls [VStr "division by zero"] None false]
           [])
  /\ fn_call (raise_if_return (Val (VClass ValueError_cls)) (Some "ctx")
                (Some logger) ERROR [str_cls] true divide) [] [] empty_state
     = (Exn 0,
        State [ExcObj ZeroDivisionError_cls [VStr "division by zero"] None
                 false] []).
Proof.
  split; [reflexivity|].
  exact (raise_if_return_propagates_errors divide [] [] empty_state _ 0
           (Val (VClass ValueError_cls)) (Some "ctx") (Some logger) ERROR
           [str_cls] true eq_refl).
Defined.

Lemma raise_if_return_raises_given_instance_witness :
  fn_call parseFlag [] [] state_with_boom
  = (Ok (Val (VStr "bad input")), state_with_boom)
  /\ is_raise [boom] (Val (VStr "bad input")) [str_cls] false = true
  /\ fn_call (raise_if_return (ExcRef 0) None (Some logger) ERROR [str_cls]
                false parseFlag) [] [] state_with_boom
     = (Exn 0,
        State [boom] [LogRecord "app" 40 "<parseFlag> ValueError: boom"]).
Proof.
  split; [reflexivity|]. split; [reflexivity|].
  exact (raise_if_return_raises_given_instance parseFlag [] []
           state_with_boom _ (Val (VStr "bad input")) 0 None logger ERROR
           [str_cls] false eq_refl eq_refl).
Defined.

Lemma fallback_over_raise_if_return_witness :
  fn_call parseFlag [] [] empty_state
  = (Ok (Val (VStr "bad input")), empty_state)
  /\ is_raise [] (Val (VStr "bad input")) [str_cls] false = true
  /\ issubclass ValueError_cls Exception_cls = true
  /\ cls_init ValueError_cls 1 = None
  /\ fn_call (err_log_and_return (Val (VBool false)) (Some "flag") false
                (Some logger) 30
                (raise_if_return (Val (VClass ValueError_cls)) None
                   (Some logger) ERROR [str_cls] false parseFlag))
       [] [] empty_state
     = (Ok (Val (VBool false)),
        State [ExcObj ValueError_cls [VStr "bad input"] None false]
              [LogRecord "app" 40 "<parseFlag> ValueError: bad input";
               LogRecord "app" 30
                 "<parseFlag> flag: ValueError: bad input"]).
Proof.
  split; [reflexivity|]. split; [reflexivity|]. split; [reflexivity|].
  split; [reflexivity|].
  exact (fallback_over_raise_if_return parseFlag [] [] empty_state _
           (Val (VStr "bad input")) (Val (VBool false)) ValueError_cls None
           (Some "flag") false logger logger ERROR 30 [str_cls] false
           eq_refl eq_refl eq_refl eq_refl).
Defined.

Lemma nested_interceptors_log_twice_witness :
  fn_call f_KeyError [] [] empty_state
  = (Exn 0, State [ExcObj KeyError_cls [VStr "k"] None false] [])
  /\ fn_call (err_interceptor (Val VNone) (Some "outer") false (Some logger)
                true 30
                (err_interceptor (Val VNone) None false (Some logger) true
                   ERROR f_KeyError)) [] [] empty_state
     = (Exn 0,
        State [ExcObj KeyError_cls [VStr "k"] None false]
              [LogRecord "app" 40 "<f> KeyError: 'k'";
               LogRecord "app" 30 "<f> outer: KeyError: 'k'"]).
Proof.
  split; [reflexivity|].
  exact (nested_interceptors_log_twice f_KeyError [] [] empty_state _ 0 None
           (Some "outer") false false logger logger true true ERROR 30
           eq_refl eq_refl).
Defined.

Lemma raise_err_and_log_class_with_message_witness :
  issubclass ValueError_cls Exception_cls = true
  /\ cls_init ValueError_cls 1 = None
  /\ raise_err_and_log (Val (VClass ValueError_cls)) (Some "wrong key")
       (Some "lookup") (Some logger) ERROR (SrcStr "loader") empty_state
     = (Exn 0,
        State [ExcObj ValueError_cls [VStr "wrong key"] None false]
              [LogRecord "app" 40 "<loader> lookup: ValueError: wrong key"]).
Proof.
  split; [reflexivity|]. split; [reflexivity|].
  refine (raise_err_and_log_class_with_message ValueError_cls "wrong key"
            (Some "lookup") logger ERROR (SrcStr "loader") empty_state
            eq_refl eq_refl _).
  discriminate.
Defined.

Lemma raise_err_and_log_class_without_message_witness :
  issubclass ValueError_cls BaseException_cls = true
  /\ cls_init ValueError_cls 0 = None
  /\ text_truthy None = false
  /\ raise_err_and_log (Val (VClass ValueError_cls)) None None (Some logger)
       ERROR (SrcStr "loader") empty_state
     = (Exn 0,
        State [ExcObj ValueError_cls [] None false]
              [LogRecord "app" 40 "<loader> <class 'ValueError'>"]).
Proof.
  split; [reflexivity|]. split; [reflexivity|]. split; [reflexivity|].
  exact (raise_err_and_log_class_without_message ValueError_cls None None
           logger ERROR (SrcStr "loader") empty_state eq_refl eq_refl
           eq_refl).
Defined.

Lemma rendered_error_text_witness :
  [ExcObj SystemExit_cls [VStr "bye"] None false; boom] !! 0
  = Some (ExcObj SystemExit_cls [VStr "bye"] None false)
  /\ obj_str [ExcObj SystemExit_cls [VStr "bye"] None false; boom]
       (get_err_str [ExcObj SystemExit_cls [VStr "bye"] None false; boom]
          (ExcRef 0)) = "bye"
  /\ obj_str [ExcObj SystemExit_cls [VStr "bye"] None false; boom]
       (get_err_str [ExcObj SystemExit_cls [VStr "bye"] None false; boom]
          (ExcRef 1)) = "ValueError: boom".
Proof.
  split; [reflexivity|]. split.
  - exact (proj1 (rendered_error_text
                    [ExcObj SystemExit_cls [VStr "bye"] None false; boom] 0
                    _ "" object_cls eq_refl)).
  - exact (proj1 (rendered_error_text
                    [ExcObj SystemExit_cls [VStr "bye"] None false; boom] 1
                    _ "" object_cls eq_refl)).
Defined.

Lemma validators_are_nested_witness :
  validate_is_datetime (DtDatetime utc_noon) false empty_state
  = (Ok tt, empty_state)
  /\ validate_is_datetime (DtDatetime utc_noon) true empty_state
     = (Ok tt, empty_state)
  /\ validate_is_date (DtDatetime utc_noon) empty_state = (Ok tt, empty_state)
  /\ validate_any_datetime (DtDatetime utc_noon) empty_state
     = (Ok tt, empty_state)
  /\ validate_is_time (DtDatetime utc_noon) empty_state
     = (Ok tt, empty_state).
Proof.
  split; [reflexivity|].
  exact (proj2 (proj2 (validators_are_nested (DtDatetime utc_noon) 0%Z
                         empty_state)) eq_refl).
Defined.

Lemma are_eq_tz_refuses_witness :
  (List.length [DtOther VNone] < 2)%nat
  /\ are_eq_tz [DtOther VNone] empty_state
     = (Exn 0,
        State [ExcObj ValueError_cls
                 [VStr "атрибутов date должно быть 2 и более"] None false] [])
  /\ (2 <= List.length [DtDatetime utc_noon; DtDate 0%Z])%nat
  /\ are_eq_tz [DtDatetime utc_noon; DtDate 0%Z] empty_state
     = (Exn 0,
        State [ExcObj TypeError_cls
                 [VStr "объекты date должны быть datetime"] None false] []).
Proof.
  split; [simpl; lia|]. split.
  - apply (proj1 (are_eq_tz_refuses [DtOther VNone] empty_state)).
    simpl; lia.
  - split; [simpl; lia|].
    apply (proj2 (are_eq_tz_refuses [DtDatetime utc_noon; DtDate 0%Z]
                    empty_state)).
    + simpl; lia.
    + exists (DtDate 0%Z). split.
      * apply elem_of_cons. right. apply elem_of_cons. now left.
      * discriminate.
Defined.




